(** * ha_mqtt_discoverable.climate: capability-to-topic mapping

    A shallow embedding of [src/ha_mqtt_discoverable/climate.py] and the
    properties of its topic generation, state setters and command routing.

    Python objects are records, Python dictionaries are finite maps
    ([gmap]) where they are only looked up and insertion-ordered association
    lists where the code iterates over them, exceptions are values of [exn]
    and every method is a computation in the state-and-exception monad [M]
    over the instance and the attributes of the class. *)

From Stdlib Require Import NArith ZArith Ascii String List.
From stdpp Require Import base list strings gmap pretty.


(** ** Python strings *)

Module PyStr.

(** [s.endswith(suffix)] *)
Definition endswith (s suffix : string) : bool :=
  let n := String.length s in
  let m := String.length suffix in
  (m <=? n)%nat && String.eqb (String.substring (n - m) m s) suffix.

(** [s.removesuffix(suffix)]: the string without [suffix] when it ends with
    it and [suffix] is not empty, the string itself otherwise. *)
Definition removesuffix (s suffix : string) : string :=
  if negb (String.eqb suffix "") && endswith s suffix
  then String.substring 0 (String.length s - String.length suffix) s
  else s.

(** [x in l] for a list of strings. *)
Definition contains (x : string) (l : list string) : bool :=
  bool_decide (x ∈ l).

(** [s.split("/")]: the levels of an MQTT topic. *)
Fixpoint split_slash (s : string) : list string :=
  match s with
  | EmptyString => [""]
  | String c s' =>
      if Ascii.eqb c "/" then "" :: split_slash s'
      else match split_slash s' with
           | l :: ls => String c l :: ls
           | [] => [String c ""]
           end
  end.

(** A string without the level separator. *)
Fixpoint no_slash (s : string) : bool :=
  match s with
  | EmptyString => true
  | String c s' => negb (Ascii.eqb c "/") && no_slash s'
  end.

End PyStr.

(** ** Python dictionaries that are iterated

    A dictionary keeps its keys in the order of their first insertion;
    assigning to a key that is present replaces the value in place. *)

Module PyDict.

Definition t (V : Type) := list (string * V).

(** [d.get(k)]; [d[k]] is this lookup, raising [KeyError] on [None]. *)
Fixpoint get {V} (k : string) (d : t V) : option V :=
  match d with
  | [] => None
  | (k', v) :: d' => if String.eqb k' k then Some v else get k d'
  end.

(** [d[k] = v] *)
Fixpoint set {V} (k : string) (v : V) (d : t V) : t V :=
  match d with
  | [] => [(k, v)]
  | (k', v') :: d' =>
      if String.eqb k' k then (k', v) :: d' else (k', v') :: set k v d'
  end.

(** [d.items()] *)
Definition items {V} (d : t V) : list (string * V) := d.

End PyDict.

(** ** MQTT topic filters

    The MQTT client is an external library. Whether a subscription covers
    a topic is decided by the rules of MQTT: levels are separated by [/],
    [+] stands for one level, [#] for every remaining level (the parent
    level included), and a filter that starts with a wildcard matches no
    topic that starts with [$]. *)

Module Topic.

(** The levels of a filter against the levels of a topic. *)
Fixpoint match_levels (sub topic : list string) : bool :=
  match sub with
  | [] => match topic with [] => true | _ :: _ => false end
  | s :: sub' =>
      if String.eqb s "#" then true
      else match topic with
           | [] => false
           | t :: topic' =>
               (String.eqb s "+" || String.eqb s t) && match_levels sub' topic'
           end
  end.

Definition starts_with (c : ascii) (s : string) : bool :=
  match s with
  | String c' _ => Ascii.eqb c' c
  | EmptyString => false
  end.

(** The subscription [sub] covers [topic]. *)
Definition matches (sub topic : string) : bool :=
  negb ((starts_with "#" sub || starts_with "+" sub) && starts_with "$" topic)
  && match_levels (PyStr.split_slash sub) (PyStr.split_slash topic).

End Topic.

(** ** Exceptions and the method monad *)

(** The text of a [RuntimeError]: a literal, or one of the two formatted
    messages of the module with the values they interpolate. *)
Inductive message :=
| Literal (text : string)
  (** f"Error sending state {state} to MQTT {topic} topic {rc}" *)
| ErrorSendingState (state topic : string) (rc : Z)
  (** f"Error sending {what} {value} not valid value accepted are {accepted}" *)
| NotValidValue (what value : string) (accepted : list string).

Inductive exn :=
| RuntimeError (msg : message)
| KeyError (key : string)
| AttributeError (name : string)
| TypeError (msg : string).

Inductive result (A : Type) :=
| Ok (a : A)
| Raise (e : exn).
Arguments Ok {A} a.
Arguments Raise {A} e.

Definition NoneType_not_iterable : string :=
  "argument of type 'NoneType' is not iterable".

(** A method body: it reads and writes a state [S] and returns or raises;
    what it wrote before raising stays written. *)
Definition M (S A : Type) : Type := S -> result A * S.

Definition ret {S A} (a : A) : M S A := fun s => (Ok a, s).
Definition raise {S A} (e : exn) : M S A := fun s => (Raise e, s).
Definition bind {S A B} (m : M S A) (k : A -> M S B) : M S B :=
  fun s => match m s with
           | (Ok a, s') => k a s'
           | (Raise e, s') => (Raise e, s')
           end.
Definition gets {S A} (f : S -> A) : M S A := fun s => (Ok (f s), s).
Definition modify {S} (f : S -> S) : M S unit := fun s => (Ok tt, f s).

Declare Scope py_scope.
Delimit Scope py_scope with py.
Notation "x <- m ;; k" := (bind m (fun x => k))
  (at level 62, m at next level, right associativity) : py_scope.

Local Open Scope py_scope.

(** ** ClimateSetting.Capability *)

Module Capability.

(** The members of the [Flag] enumeration, in the order of their
    declaration. *)
Inductive flag :=
| ACTION
| CURRENT_HUMIDITY
| CURRENT_TEMPERATURE
| FAN_MODE
| MODE
| POWER
| PRESET_MODE
| SWING_MODE
| TARGET_HUMIDITY
| TARGET_TEMPERATURE
| TARGET_HIGH_TEMPERATURE
| TARGET_LOW_TEMPERATURE.

(** [auto()] numbers the members of a [Flag] with the powers of two. *)
Definition value (f : flag) : N :=
  match f with
  | ACTION => 1
  | CURRENT_HUMIDITY => 2
  | CURRENT_TEMPERATURE => 4
  | FAN_MODE => 8
  | MODE => 16
  | POWER => 32
  | PRESET_MODE => 64
  | SWING_MODE => 128
  | TARGET_HUMIDITY => 256
  | TARGET_TEMPERATURE => 512
  | TARGET_HIGH_TEMPERATURE => 1024
  | TARGET_LOW_TEMPERATURE => 2048
  end%N.

(** A capability set is the value of a (possibly composite) [Flag]. *)
Definition t := N.

Definition members : list flag :=
  [ACTION; CURRENT_HUMIDITY; CURRENT_TEMPERATURE; FAN_MODE; MODE; POWER;
   PRESET_MODE; SWING_MODE; TARGET_HUMIDITY; TARGET_TEMPERATURE;
   TARGET_HIGH_TEMPERATURE; TARGET_LOW_TEMPERATURE].

(** [a | b] *)
Definition union (a b : t) : t := N.lor a b.

(** [Flag.__contains__]: [f in c]. *)
Definition contains (f : flag) (c : t) : bool :=
  (N.land (value f) c =? value f)%N.

(** [bool(c)]: a [Flag] is falsy when no member is set. *)
Definition truthy (c : t) : bool := negb (c =? 0)%N.

Global Instance flag_eq_dec : EqDecision flag.
Proof. solve_decision. Defined.

End Capability.

Import Capability.

(** ** Climate.Action *)

Inductive Action := OFF | HEATING | COOLING | DRYING | IDLE | FAN.

(** [action.value] *)
Definition Action_value (a : Action) : string :=
  match a with
  | OFF => "off"
  | HEATING => "heating"
  | COOLING => "cooling"
  | DRYING => "drying"
  | IDLE => "idle"
  | FAN => "fan"
  end.

(** [paho.mqtt.client.MQTT_ERR_SUCCESS] *)
Definition MQTT_ERR_SUCCESS : Z := 0.

(** [Settings.MQTT]: the connection settings; the module reads
    [state_prefix]. *)
Record MQTT := {
  host : string;
  state_prefix : string;
}.

Section Model.

(** Python numbers (the [float] arguments and fields), the callables given
    as command callbacks and the user data handed to them. *)
Context {Number Callback UserData : Type}.

(** [str(x)] on a number. *)
Class Str := str : Number -> string.
Context {NumberStr : Str}.

(** The values of a configuration dictionary ([dict[str, Any]]). *)
Inductive pyobj :=
| PyStr (s : string)
| PyNumber (x : Number)
| PyBool (b : bool)
| PyStrList (l : list string).

(** [ClimateInfo(EntityInfo)] *)
Record ClimateInfo := {
  name : string;
  component : string;
  fan_modes : option (list string);
  initial : option Number;
  max_humidity : option Number;
  max_temp : option Number;
  min_humidity : option Number;
  min_temp : option Number;
  modes : option (list string);
  optimistic : option bool;
  payload_available : string;
  payload_not_available : string;
  payload_off : string;
  payload_on : string;
  precision : option Number;
  preset_modes : option (list string);
  swing_modes : option (list string);
  temperature_unit : option string;
  temp_step : Number;
}.

(** [ClimateSetting(Settings[EntityType])] *)
Record ClimateSetting := {
  mqtt : MQTT;
  entity : ClimateInfo;
  manual_availability : bool;
  capability : option Capability.t;
}.

(** The MQTT client of an instance, as far as the module drives it: the
    messages handed to [publish] (oldest first), the calls of [subscribe]
    with their quality of service, the callbacks added with
    [message_callback_add], keyed by topic filter, and the user data. *)
Record Client := {
  published : list (string * string);
  subscriptions : list (string * nat);
  on_message_filtered : gmap string Callback;
  userdata : option UserData;
  connecting : bool;
}.

(** A [Climate] instance. [_entity] is the entity object of the settings
    (one object under two names), so it is stored once, inside
    [_settings]. [command_callbacks] is the argument of the constructor
    that the closure [on_client_connected] keeps. [state_topic] is the
    instance attribute of that name, [None] when it is not set. *)
Record Climate := {
  _settings : ClimateSetting;
  _entity_topic : string;
  state_topic : option string;
  mqtt_client : Client;
  command_callbacks : gmap string Callback;
}.

Definition _entity (self : Climate) : ClimateInfo := entity (_settings self).

(** The attributes of the class [Climate] itself: the two dictionaries are
    created once, in the class body, and no method rebinds them on an
    instance, so every instance reads and writes these. [_command_topics]
    keeps the insertion order of a Python dictionary because
    [on_client_connected] iterates over it. *)
Record ClimateClass := {
  _state_topics : gmap string string;
  _command_topics : list (string * string);
}.

(** What a method sees: its instance and the class. *)
Record State := {
  self : Climate;
  cls : ClimateClass;
}.

(** *** The collaborators outside the module

    The base class [Discoverable] and the MQTT client are not part of the
    module. They are taken as an interface: any base class and any broker
    can stand behind it. *)

(** The base class, seen from [Climate]. The parent reads the settings
    (with the entity), the topic of the entity and the [state_topic]
    attribute of the instance. *)
Class Discoverable := {
  (** [super().generate_config()] *)
  super_generate_config :
    ClimateSetting -> string -> option string -> gmap string pyobj;
  (** The topic [write_config] publishes the discovery payload to. *)
  config_topic : ClimateSetting -> string -> string;
  (** [json.dumps(config)] *)
  json_dumps : gmap string pyobj -> string;
}.

(** The return codes of the network calls of the client. *)
Class Broker := {
  publish_rc : Client -> string -> string -> Z;
  subscribe_rc : Client -> string -> nat -> Z;
}.

Context {Base : Discoverable} {Net : Broker}.

(** *** Field updates *)

Definition set_entity (e : ClimateInfo) (s : ClimateSetting) : ClimateSetting :=
  {| mqtt := mqtt s; entity := e;
     manual_availability := manual_availability s;
     capability := capability s |}.

Definition set_fan_modes (v : option (list string)) (e : ClimateInfo) : ClimateInfo :=
  {| name := name e; component := component e; fan_modes := v;
     initial := initial e; max_humidity := max_humidity e;
     max_temp := max_temp e; min_humidity := min_humidity e;
     min_temp := min_temp e; modes := modes e; optimistic := optimistic e;
     payload_available := payload_available e;
     payload_not_available := payload_not_available e;
     payload_off := payload_off e; payload_on := payload_on e;
     precision := precision e; preset_modes := preset_modes e;
     swing_modes := swing_modes e; temperature_unit := temperature_unit e;
     temp_step := temp_step e |}.

Definition set_modes (v : option (list string)) (e : ClimateInfo) : ClimateInfo :=
  {| name := name e; component := component e; fan_modes := fan_modes e;
     initial := initial e; max_humidity := max_humidity e;
     max_temp := max_temp e; min_humidity := min_humidity e;
     min_temp := min_temp e; modes := v; optimistic := optimistic e;
     payload_available := payload_available e;
     payload_not_available := payload_not_available e;
     payload_off := payload_off e; payload_on := payload_on e;
     precision := precision e; preset_modes := preset_modes e;
     swing_modes := swing_modes e; temperature_unit := temperature_unit e;
     temp_step := temp_step e |}.

Definition set_swing_modes (v : option (list string)) (e : ClimateInfo) : ClimateInfo :=
  {| name := name e; component := component e; fan_modes := fan_modes e;
     initial := initial e; max_humidity := max_humidity e;
     max_temp := max_temp e; min_humidity := min_humidity e;
     min_temp := min_temp e; modes := modes e; optimistic := optimistic e;
     payload_available := payload_available e;
     payload_not_available := payload_not_available e;
     payload_off := payload_off e; payload_on := payload_on e;
     precision := precision e; preset_modes := preset_modes e;
     swing_modes := v; temperature_unit := temperature_unit e;
     temp_step := temp_step e |}.

Definition with_settings (s : ClimateSetting) (o : Climate) : Climate :=
  {| _settings := s; _entity_topic := _entity_topic o;
     state_topic := state_topic o; mqtt_client := mqtt_client o;
     command_callbacks := command_callbacks o |}.

Definition with_state_topic (v : option string) (o : Climate) : Climate :=
  {| _settings := _settings o; _entity_topic := _entity_topic o;
     state_topic := v; mqtt_client := mqtt_client o;
     command_callbacks := command_callbacks o |}.

Definition with_mqtt_client (c : Client) (o : Climate) : Climate :=
  {| _settings := _settings o; _entity_topic := _entity_topic o;
     state_topic := state_topic o; mqtt_client := c;
     command_callbacks := command_callbacks o |}.

Definition with_command_callbacks (cb : gmap string Callback) (o : Climate) : Climate :=
  {| _settings := _settings o; _entity_topic := _entity_topic o;
     state_topic := state_topic o; mqtt_client := mqtt_client o;
     command_callbacks := cb |}.

Definition with_entity (e : ClimateInfo) (o : Climate) : Climate :=
  with_settings (set_entity e (_settings o)) o.

Definition on_self (f : Climate -> Climate) (st : State) : State :=
  {| self := f (self st); cls := cls st |}.

Definition on_cls (f : ClimateClass -> ClimateClass) (st : State) : State :=
  {| self := self st; cls := f (cls st) |}.

(** *** The MQTT client *)

Definition client_publish (topic payload : string) (c : Client) : Client :=
  {| published := published c ++ [(topic, payload)];
     subscriptions := subscriptions c;
     on_message_filtered := on_message_filtered c;
     userdata := userdata c; connecting := connecting c |}.

Definition client_subscribe (topic : string) (qos : nat) (c : Client) : Client :=
  {| published := published c;
     subscriptions := subscriptions c ++ [(topic, qos)];
     on_message_filtered := on_message_filtered c;
     userdata := userdata c; connecting := connecting c |}.

Definition client_message_callback_add (sub : string) (cb : Callback)
    (c : Client) : Client :=
  {| published := published c;
     subscriptions := subscriptions c;
     on_message_filtered := <[sub := cb]> (on_message_filtered c);
     userdata := userdata c; connecting := connecting c |}.

Definition client_user_data_set (u : option UserData) (c : Client) : Client :=
  {| published := published c;
     subscriptions := subscriptions c;
     on_message_filtered := on_message_filtered c;
     userdata := u; connecting := connecting c |}.

Definition client_connect (c : Client) : Client :=
  {| published := published c;
     subscriptions := subscriptions c;
     on_message_filtered := on_message_filtered c;
     userdata := userdata c; connecting := true |}.

(** [self.mqtt_client.publish(topic, payload)], returning the code. *)
Definition publish (topic payload : string) : M State Z :=
  fun st =>
    (Ok (publish_rc (mqtt_client (self st)) topic payload),
     on_self (with_mqtt_client
                (client_publish topic payload (mqtt_client (self st)))) st).

(** [client.subscribe(topic, qos=qos)], returning the code. *)
Definition subscribe (topic : string) (qos : nat) : M State Z :=
  fun st =>
    (Ok (subscribe_rc (mqtt_client (self st)) topic qos),
     on_self (with_mqtt_client
                (client_subscribe topic qos (mqtt_client (self st)))) st).

(** [self.mqtt_client.message_callback_add(sub, callback)] *)
Definition message_callback_add (sub : string) (cb : Callback) : M State unit :=
  modify (fun st =>
    on_self (with_mqtt_client
               (client_message_callback_add sub cb (mqtt_client (self st)))) st).

(** *** Climate.generate_config *)

(** The f-string of [addStateTopic]. *)
Definition state_topic_of (self : Climate) (key : string) : string :=
  state_prefix (mqtt (_settings self)) +:+ "/" +:+ _entity_topic self
    +:+ "/state/"
    +:+ PyStr.removesuffix (PyStr.removesuffix key "_topic") "_state".

(** The f-string of [addCommandTopic]. *)
Definition command_topic_of (self : Climate) (key : string) : string :=
  state_prefix (mqtt (_settings self)) +:+ "/" +:+ _entity_topic self
    +:+ "/command/"
    +:+ PyStr.removesuffix (PyStr.removesuffix key "_topic") "_command".

(** The local dictionary [config] is passed along; the class dictionary
    receives the string just stored under [config[key]]. *)
Definition addStateTopic (key : string) (config : gmap string pyobj)
    : M State (gmap string pyobj) :=
  topic <- gets (fun st => state_topic_of (self st) key) ;;
  _ <- modify (on_cls (fun c =>
         {| _state_topics := <[key := topic]> (_state_topics c);
            _command_topics := _command_topics c |})) ;;
  ret (<[key := PyStr topic]> config).

Definition addCommandTopic (key : string) (config : gmap string pyobj)
    : M State (gmap string pyobj) :=
  topic <- gets (fun st => command_topic_of (self st) key) ;;
  _ <- modify (on_cls (fun c =>
         {| _state_topics := _state_topics c;
            _command_topics := PyDict.set key topic (_command_topics c) |})) ;;
  ret (<[key := PyStr topic]> config).

(** [delattr(self, "state_topic")] *)
Definition delattr_state_topic : M State unit :=
  a <- gets (fun st => state_topic (self st)) ;;
  match a with
  | None => raise (AttributeError "state_topic")
  | Some _ => modify (on_self (with_state_topic None))
  end.

(** [del config[key]] *)
Definition del_item (key : string) (config : gmap string pyobj)
    : M State (gmap string pyobj) :=
  match config !! key with
  | None => raise (KeyError key)
  | Some _ => ret (delete key config)
  end.

(** [if flag in capability: body] on the local [config]. *)
Definition when_in (f : flag) (c : Capability.t)
    (body : gmap string pyobj -> M State (gmap string pyobj))
    (config : gmap string pyobj) : M State (gmap string pyobj) :=
  if contains f c then body config else ret config.

(** The block under [if self._settings.capability:]. *)
Definition add_climate_topics (c : Capability.t) (config : gmap string pyobj)
    : M State (gmap string pyobj) :=
  config <- when_in ACTION c (addStateTopic "action_topic") config ;;
  config <- when_in CURRENT_HUMIDITY c
              (addStateTopic "current_humidity_topic") config ;;
  config <- when_in CURRENT_TEMPERATURE c
              (addStateTopic "current_temperature_topic") config ;;
  config <- when_in FAN_MODE c (fun config =>
              config <- addStateTopic "fan_mode_state_topic" config ;;
              addCommandTopic "fan_mode_command_topic" config) config ;;
  config <- when_in MODE c (fun config =>
              config <- addStateTopic "mode_state_topic" config ;;
              addCommandTopic "mode_command_topic" config) config ;;
  config <- when_in POWER c (addCommandTopic "power_command_topic") config ;;
  config <- when_in PRESET_MODE c (fun config =>
              config <- addStateTopic "preset_mode_state_topic" config ;;
              addCommandTopic "preset_mode_command_topic" config) config ;;
  config <- when_in SWING_MODE c (fun config =>
              config <- addStateTopic "swing_mode_state_topic" config ;;
              addCommandTopic "swing_mode_command_topic" config) config ;;
  config <- when_in TARGET_HUMIDITY c (fun config =>
              config <- addStateTopic "target_humidity_state_topic" config ;;
              addCommandTopic "target_humidity_command_topic" config) config ;;
  config <- when_in TARGET_TEMPERATURE c (fun config =>
              config <- addStateTopic "temperature_state_topic" config ;;
              addCommandTopic "temperature_command_topic" config) config ;;
  config <- when_in TARGET_HIGH_TEMPERATURE c (fun config =>
              config <- addStateTopic "temperature_high_state_topic" config ;;
              addCommandTopic "temperature_high_command_topic" config) config ;;
  when_in TARGET_LOW_TEMPERATURE c (fun config =>
              config <- addStateTopic "temperature_low_state_topic" config ;;
              addCommandTopic "temperature_low_command_topic" config) config.

Definition generate_config : M State (gmap string pyobj) :=
  _ <- modify (on_self (with_state_topic (Some "bogus"))) ;;
  config <- gets (fun st =>
              super_generate_config (_settings (self st))
                (_entity_topic (self st)) (state_topic (self st))) ;;
  _ <- delattr_state_topic ;;
  config <- del_item "state_topic" config ;;
  cap <- gets (fun st => capability (_settings (self st))) ;;
  match cap with
  | Some c => if truthy c then add_climate_topics c config else ret config
  | None => ret config
  end.

(** *** The state setters *)

(** Modelled from the spec: [Discoverable._state_helper] is not part of the
    module; the spec describes the publishing of state as pass-through
    publish calls, so the helper hands [state] to [publish] on [topic] and
    returns what the client returns. *)
Definition _state_helper (state topic : string) : M State Z :=
  publish topic state.

Definition _capability_state_helper (capability_ : flag) (state topic : string)
    : M State unit :=
  cap <- gets (fun st => capability (_settings (self st))) ;;
  match cap with
  | None => raise (TypeError NoneType_not_iterable)
  | Some c =>
      if negb (contains capability_ c)
      then raise (RuntimeError
                    (Literal "Action is not configured for this entity!"))
      else
        rc <- _state_helper state topic ;;
        if negb (rc =? MQTT_ERR_SUCCESS)%Z
        then raise (RuntimeError (ErrorSendingState state topic rc))
        else ret tt
  end.

(** [self._state_topics[key]] *)
Definition state_topics_getitem (key : string) : M State string :=
  d <- gets (fun st => _state_topics (cls st)) ;;
  match d !! key with
  | Some topic => ret topic
  | None => raise (KeyError key)
  end.

Definition set_action (action : Action) : M State unit :=
  let state := Action_value action in
  topic <- state_topics_getitem "action_topic" ;;
  _capability_state_helper ACTION state topic.

Definition set_current_humidity (humidity : Number) : M State unit :=
  topic <- state_topics_getitem "current_humidity_topic" ;;
  let state := str humidity in
  _capability_state_helper CURRENT_HUMIDITY state topic.

Definition set_target_humidity (humidity : Number) : M State unit :=
  topic <- state_topics_getitem "target_humidity_state_topic" ;;
  let state := str humidity in
  _capability_state_helper TARGET_HUMIDITY state topic.

Definition set_current_temperature (temperature : Number) : M State unit :=
  topic <- state_topics_getitem "current_temperature_topic" ;;
  let state := str temperature in
  _capability_state_helper CURRENT_TEMPERATURE state topic.

Definition set_target_temperature (temperature : Number) : M State unit :=
  topic <- state_topics_getitem "temperature_state_topic" ;;
  let state := str temperature in
  _capability_state_helper TARGET_TEMPERATURE state topic.

Definition set_target_high_temperature (temperature : Number) : M State unit :=
  topic <- state_topics_getitem "temperature_high_state_topic" ;;
  let state := str temperature in
  _capability_state_helper TARGET_HIGH_TEMPERATURE state topic.

Definition set_target_low_temperature (temperature : Number) : M State unit :=
  topic <- state_topics_getitem "temperature_low_state_topic" ;;
  let state := str temperature in
  _capability_state_helper TARGET_LOW_TEMPERATURE state topic.

(** [if value not in accepted: raise RuntimeError(...)]; the test itself
    raises [TypeError] when the list of the entity is [None]. *)
Definition check_accepted (what value : string)
    (accepted : option (list string)) : M State unit :=
  match accepted with
  | None => raise (TypeError NoneType_not_iterable)
  | Some l =>
      if negb (PyStr.contains value l)
      then raise (RuntimeError (NotValidValue what value l))
      else ret tt
  end.

Definition set_fan_mode (fan_mode : string) : M State unit :=
  accepted <- gets (fun st => fan_modes (_entity (self st))) ;;
  _ <- check_accepted "fan mode" fan_mode accepted ;;
  topic <- state_topics_getitem "fan_mode_state_topic" ;;
  let state := fan_mode in
  _capability_state_helper FAN_MODE state topic.

Definition set_mode (mode : string) : M State unit :=
  accepted <- gets (fun st => modes (_entity (self st))) ;;
  _ <- check_accepted "mode" mode accepted ;;
  topic <- state_topics_getitem "mode_state_topic" ;;
  let state := mode in
  _capability_state_helper MODE state topic.

Definition set_preset_mode (preset_mode : string) : M State unit :=
  accepted <- gets (fun st => preset_modes (_entity (self st))) ;;
  _ <- check_accepted "preset mode" preset_mode accepted ;;
  topic <- state_topics_getitem "preset_mode_state_topic" ;;
  let state := preset_mode in
  _capability_state_helper PRESET_MODE state topic.

(** The message of [set_swing_mode] reads "preset mode" in the source. *)
Definition set_swing_mode (swing_mode : string) : M State unit :=
  accepted <- gets (fun st => swing_modes (_entity (self st))) ;;
  _ <- check_accepted "preset mode" swing_mode accepted ;;
  topic <- state_topics_getitem "swing_mode_state_topic" ;;
  let state := swing_mode in
  _capability_state_helper SWING_MODE state topic.

(** *** The connection callback *)

(** Modelled from the spec: [Discoverable.write_config] is not part of the
    module; by the docstring of [generate_config] the dictionary it returns
    is ground into JSON and written to MQTT, so [write_config] generates
    the configuration and publishes its JSON text on the configuration
    topic of the entity. *)
Definition write_config : M State unit :=
  config <- generate_config ;;
  topic <- gets (fun st =>
             config_topic (_settings (self st)) (_entity_topic (self st))) ;;
  _ <- publish topic (json_dumps config) ;;
  ret tt.

(** [for key, value in items: if key in command_callbacks: ...] *)
Fixpoint add_callbacks (items : list (string * string)) : M State unit :=
  match items with
  | [] => ret tt
  | (key, value) :: items' =>
      callbacks <- gets (fun st => command_callbacks (self st)) ;;
      _ <- match callbacks !! key with
           | Some cb => message_callback_add value cb
           | None => ret tt
           end ;;
      add_callbacks items'
  end.

(** The subscription of [on_client_connected]. *)
Definition command_wildcard (self : Climate) : string :=
  state_prefix (mqtt (_settings self)) +:+ "/" +:+ _entity_topic self
    +:+ "/command/#".

Definition on_client_connected : M State unit :=
  sub <- gets (fun st => command_wildcard (self st)) ;;
  result <- subscribe sub 1 ;;
  if negb (result =? MQTT_ERR_SUCCESS)%Z
  then raise (RuntimeError (Literal "Error subscribing to MQTT command topic"))
  else
    _ <- write_config ;;
    items <- gets (fun st => PyDict.items (_command_topics (cls st))) ;;
    add_callbacks items.

(** *** Climate.__init__ *)

(** [not l] for an optional list: [None] and the empty list are falsy. *)
Definition not_ (l : option (list string)) : bool :=
  match l with
  | None | Some [] => true
  | Some (_ :: _) => false
  end.

(** The default values installed after the parent constructor. *)
Definition install_defaults (self : Climate) : Climate :=
  match capability (_settings self) with
  | Some c =>
      if truthy c then
        let self :=
          if contains FAN_MODE c && not_ (fan_modes (_entity self))
          then with_entity
                 (set_fan_modes (Some ["auto"; "low"; "medium"; "high"])
                    (_entity self)) self
          else self in
        let self :=
          if contains MODE c && not_ (modes (_entity self))
          then with_entity
                 (set_modes
                    (Some ["auto"; "off"; "cool"; "heat"; "dry"; "fan_only"])
                    (_entity self)) self
          else self in
        let self :=
          if contains SWING_MODE c && not_ (swing_modes (_entity self))
          then with_entity
                 (set_swing_modes (Some ["on"; "off"]) (_entity self)) self
          else self in
        self
      else self
  | None => self
  end.

(** The constructor. [self0] is the instance as [super().__init__] leaves
    it (the base constructor is not part of the module); the closure
    [on_client_connected] keeps [command_callbacks]. *)
Definition __init__ (self0 : Climate) (settings : ClimateSetting)
    (command_callbacks_ : gmap string Callback) (user_data : option UserData)
    : Climate :=
  let self := with_command_callbacks command_callbacks_ self0 in
  let self := with_settings settings self in
  let self := install_defaults self in
  let self :=
    with_mqtt_client (client_user_data_set user_data (mqtt_client self)) self in
  with_mqtt_client (client_connect (mqtt_client self)) self.

(** *** The capability table, as the specification reads it

    The key of the state topic and the key of the command topic of a
    capability, where it has one. *)

Definition state_key (f : flag) : option string :=
  match f with
  | ACTION => Some "action_topic"
  | CURRENT_HUMIDITY => Some "current_humidity_topic"
  | CURRENT_TEMPERATURE => Some "current_temperature_topic"
  | FAN_MODE => Some "fan_mode_state_topic"
  | MODE => Some "mode_state_topic"
  | POWER => None
  | PRESET_MODE => Some "preset_mode_state_topic"
  | SWING_MODE => Some "swing_mode_state_topic"
  | TARGET_HUMIDITY => Some "target_humidity_state_topic"
  | TARGET_TEMPERATURE => Some "temperature_state_topic"
  | TARGET_HIGH_TEMPERATURE => Some "temperature_high_state_topic"
  | TARGET_LOW_TEMPERATURE => Some "temperature_low_state_topic"
  end.

Definition command_key (f : flag) : option string :=
  match f with
  | ACTION | CURRENT_HUMIDITY | CURRENT_TEMPERATURE => None
  | FAN_MODE => Some "fan_mode_command_topic"
  | MODE => Some "mode_command_topic"
  | POWER => Some "power_command_topic"
  | PRESET_MODE => Some "preset_mode_command_topic"
  | SWING_MODE => Some "swing_mode_command_topic"
  | TARGET_HUMIDITY => Some "target_humidity_command_topic"
  | TARGET_TEMPERATURE => Some "temperature_command_topic"
  | TARGET_HIGH_TEMPERATURE => Some "temperature_high_command_topic"
  | TARGET_LOW_TEMPERATURE => Some "temperature_low_command_topic"
  end.

(** The two kinds of topic entry. *)
Inductive kind := StateTopic | CommandTopic.

#[global] Instance kind_eq_dec : EqDecision kind.
Proof. solve_decision. Defined.

(** The entries of one capability, state before command. *)
Definition row (f : flag) : list (kind * string) :=
  match state_key f with Some k => [(StateTopic, k)] | None => [] end
  ++ match command_key f with Some k => [(CommandTopic, k)] | None => [] end.

(** The entries of a capability set, in the order of the members. *)
Definition rows (c : Capability.t) : list (kind * string) :=
  flat_map (fun f => if contains f c then row f else []) members.

Definition rows_of (cap : option Capability.t) : list (kind * string) :=
  match cap with Some c => rows c | None => [] end.

(** The value of an entry for an instance. *)
Definition entry_topic (self : Climate) (e : kind * string) : string :=
  match e with
  | (StateTopic, key) => state_topic_of self key
  | (CommandTopic, key) => command_topic_of self key
  end.

(** The effect of one entry on the configuration and on the class. *)
Definition apply_entry (self : Climate)
    (p : gmap string pyobj * ClimateClass) (e : kind * string)
    : gmap string pyobj * ClimateClass :=
  let topic := entry_topic self e in
  match e with
  | (StateTopic, key) =>
      (<[key := PyStr topic]> p.1,
       {| _state_topics := <[key := topic]> (_state_topics p.2);
          _command_topics := _command_topics p.2 |})
  | (CommandTopic, key) =>
      (<[key := PyStr topic]> p.1,
       {| _state_topics := _state_topics p.2;
          _command_topics := PyDict.set key topic (_command_topics p.2) |})
  end.

Definition apply_entries (self : Climate) (es : list (kind * string))
    (p : gmap string pyobj * ClimateClass) : gmap string pyobj * ClimateClass :=
  fold_left (apply_entry self) es p.

(** The configuration of the parent, as [generate_config] asks for it. *)
Definition parent_config (self : Climate) : gmap string pyobj :=
  super_generate_config (_settings self) (_entity_topic self) (Some "bogus").

(** [f in self._settings.capability], false when there is no capability. *)
Definition configured (f : flag) (s : ClimateSetting) : bool :=
  match capability s with Some c => contains f c | None => false end.

(** A block of [generate_config] adds the entries [es], in this order, and
    returns. *)
Definition adds (m : gmap string pyobj -> M State (gmap string pyobj))
    (es : list (kind * string)) : Prop :=
  forall (cfg : gmap string pyobj) (st : State),
    m cfg st =
    (Ok (apply_entries (self st) es (cfg, cls st)).1,
     {| self := self st; cls := (apply_entries (self st) es (cfg, cls st)).2 |}).

(** *** The calls of the state setters *)

Inductive setter :=
| SetAction (action : Action)
| SetCurrentHumidity (humidity : Number)
| SetTargetHumidity (humidity : Number)
| SetCurrentTemperature (temperature : Number)
| SetTargetTemperature (temperature : Number)
| SetTargetHighTemperature (temperature : Number)
| SetTargetLowTemperature (temperature : Number)
| SetFanMode (fan_mode : string)
| SetMode (mode : string)
| SetPresetMode (preset_mode : string)
| SetSwingMode (swing_mode : string).

Definition call (op : setter) : M State unit :=
  match op with
  | SetAction a => set_action a
  | SetCurrentHumidity x => set_current_humidity x
  | SetTargetHumidity x => set_target_humidity x
  | SetCurrentTemperature x => set_current_temperature x
  | SetTargetTemperature x => set_target_temperature x
  | SetTargetHighTemperature x => set_target_high_temperature x
  | SetTargetLowTemperature x => set_target_low_temperature x
  | SetFanMode m => set_fan_mode m
  | SetMode m => set_mode m
  | SetPresetMode m => set_preset_mode m
  | SetSwingMode m => set_swing_mode m
  end.

(** The capability a setter belongs to. *)
Definition setter_flag (op : setter) : flag :=
  match op with
  | SetAction _ => ACTION
  | SetCurrentHumidity _ => CURRENT_HUMIDITY
  | SetTargetHumidity _ => TARGET_HUMIDITY
  | SetCurrentTemperature _ => CURRENT_TEMPERATURE
  | SetTargetTemperature _ => TARGET_TEMPERATURE
  | SetTargetHighTemperature _ => TARGET_HIGH_TEMPERATURE
  | SetTargetLowTemperature _ => TARGET_LOW_TEMPERATURE
  | SetFanMode _ => FAN_MODE
  | SetMode _ => MODE
  | SetPresetMode _ => PRESET_MODE
  | SetSwingMode _ => SWING_MODE
  end.

(** The payload the claim gives to a setter. *)
Definition setter_payload (op : setter) : string :=
  match op with
  | SetAction a => Action_value a
  | SetCurrentHumidity x | SetTargetHumidity x | SetCurrentTemperature x
  | SetTargetTemperature x | SetTargetHighTemperature x
  | SetTargetLowTemperature x => str x
  | SetFanMode m | SetMode m | SetPresetMode m | SetSwingMode m => m
  end.

(** The list a mode setter validates against, with the mode and the word
    of the error message; [None] for the other setters. *)
Definition setter_mode (op : setter) (e : ClimateInfo)
    : option (string * string * option (list string)) :=
  match op with
  | SetFanMode m => Some ("fan mode", m, fan_modes e)
  | SetMode m => Some ("mode", m, modes e)
  | SetPresetMode m => Some ("preset mode", m, preset_modes e)
  | SetSwingMode m => Some ("preset mode", m, swing_modes e)
  | _ => None
  end.

(** The argument of a setter passes its validation. *)
Definition accepted (op : setter) (e : ClimateInfo) : Prop :=
  match setter_mode op e with
  | Some (_, m, l) => exists l', l = Some l' /\ m ∈ l'
  | None => True
  end.

(** The key a setter reads in [_state_topics]. *)
Definition setter_key (op : setter) : string :=
  match op with
  | SetAction _ => "action_topic"
  | SetCurrentHumidity _ => "current_humidity_topic"
  | SetTargetHumidity _ => "target_humidity_state_topic"
  | SetCurrentTemperature _ => "current_temperature_topic"
  | SetTargetTemperature _ => "temperature_state_topic"
  | SetTargetHighTemperature _ => "temperature_high_state_topic"
  | SetTargetLowTemperature _ => "temperature_low_state_topic"
  | SetFanMode _ => "fan_mode_state_topic"
  | SetMode _ => "mode_state_topic"
  | SetPresetMode _ => "preset_mode_state_topic"
  | SetSwingMode _ => "swing_mode_state_topic"
  end.

(** One message handed to the client: the log of the client grows by it,
    and the call returns when the client reports success and raises
    otherwise. *)
Definition sends (state topic : string) (st : State) : result unit * State :=
  let rc := publish_rc (mqtt_client (self st)) topic state in
  (if (rc =? MQTT_ERR_SUCCESS)%Z then Ok tt
   else Raise (RuntimeError (ErrorSendingState state topic rc)),
   on_self (with_mqtt_client
              (client_publish topic state (mqtt_client (self st)))) st).

(** What a setter does once its argument is validated: the lookup of the
    topic, the check of the capability, the message. *)
Definition looks_up_and_sends (f : flag) (key state : string) (st : State)
    : result unit * State :=
  match _state_topics (cls st) !! key with
  | None => (Raise (KeyError key), st)
  | Some topic =>
      match capability (_settings (self st)) with
      | None => (Raise (TypeError NoneType_not_iterable), st)
      | Some c =>
          if contains f c then sends state topic st
          else (Raise (RuntimeError
                         (Literal "Action is not configured for this entity!")),
                st)
      end
  end.

(** *** The connection callback, step by step *)

(** One turn of the loop of [on_client_connected] on the client. *)
Definition register (callbacks : gmap string Callback) (c : Client)
    (item : string * string) : Client :=
  match callbacks !! item.1 with
  | Some cb => client_message_callback_add item.2 cb c
  | None => c
  end.

(** The topic of the entity that the command topics hang under. *)
Definition command_base (self : Climate) : string :=
  state_prefix (mqtt (_settings self)) +:+ "/" +:+ _entity_topic self
    +:+ "/command".

(** The last level of the command topic of a key. *)
Definition command_name (key : string) : string :=
  PyStr.removesuffix (PyStr.removesuffix key "_topic") "_command".

(** What the command dictionary of the class holds in every reachable
    state: keys of the table, each with a topic that ends in the level of
    the key. *)
Definition command_topics_wf (d : list (string * string)) : Prop :=
  forall k v, (k, v) ∈ d ->
    (CommandTopic, k) ∈ flat_map row members
    /\ last (PyStr.split_slash v) = Some (command_name k).

(** The state after the subscription of [on_client_connected]. *)
Definition subscribed (st : State) : State :=
  on_self (with_mqtt_client
             (client_subscribe (command_wildcard (self st)) 1
                (mqtt_client (self st)))) st.

(** The state after [write_config] has published the configuration
    [cfg]. *)
Definition written (cfg : gmap string pyobj) (st : State) : State :=
  on_self (with_mqtt_client
             (client_publish
                (config_topic (_settings (self st)) (_entity_topic (self st)))
                (json_dumps cfg) (mqtt_client (self st)))) st.

(** The state after the loop over the command topics. *)
Definition routed (st : State) : State :=
  on_self (with_mqtt_client
             (fold_left (register (command_callbacks (self st)))
                (_command_topics (cls st)) (mqtt_client (self st)))) st.

(** What an entry adds to the topic of the entity. *)
Definition entry_suffix (e : kind * string) : string :=
  match e with
  | (StateTopic, key) =>
      "/state/"
      +:+ PyStr.removesuffix (PyStr.removesuffix key "_topic") "_state"
  | (CommandTopic, key) =>
      "/command/"
      +:+ PyStr.removesuffix (PyStr.removesuffix key "_topic") "_command"
  end.

(** *** The class dictionaries the program can reach

    The class starts with two empty dictionaries and only
    [generate_config], on any instance, writes to them. *)
Inductive reachable : ClimateClass -> Prop :=
| reachable_init :
    reachable {| _state_topics := ∅; _command_topics := [] |}
| reachable_generate (st st' : State) (r : result (gmap string pyobj)) :
    reachable (cls st) ->
    generate_config st = (r, st') ->
    reachable (cls st').

End Model.

(** ** A concrete installation

    A base class, a broker and three thermostats to run the module on:
    numbers are integers printed in decimal, a callback is known by its
    name, the base class puts the name of the entity and its own topics
    into the configuration (its JSON text is left empty), and the broker
    accepts every call. *)

Module Example.

Definition Number : Type := Z.
Definition Callback : Type := string.
Definition UserData : Type := unit.

#[global] Instance decimal : @Str Number := fun x => pretty x.

#[global] Instance base : @Discoverable Number :=
  {| super_generate_config s et st :=
       let d : gmap string pyobj :=
         {[ "name" := PyStr (name (entity s));
            "json_attributes_topic" :=
              PyStr (state_prefix (mqtt s) +:+ "/" +:+ et +:+ "/attributes") ]} in
       match st with
       | Some t => <["state_topic" := PyStr t]> d
       | None => d
       end;
     config_topic s et := "homeassistant/" +:+ et +:+ "/config";
     json_dumps d := "{}" |}.

#[global] Instance online : @Broker Callback UserData :=
  {| publish_rc _ _ _ := 0%Z; subscribe_rc _ _ _ := 0%Z |}.

(** A broker that is not connected: [MQTT_ERR_NO_CONN]. *)
Definition offline : @Broker Callback UserData :=
  {| publish_rc _ _ _ := 4%Z; subscribe_rc _ _ _ := 4%Z |}.

Definition info (nm : string) : @ClimateInfo Number :=
  {| name := nm; component := "climate"; fan_modes := None; initial := None;
     max_humidity := None; max_temp := None; min_humidity := None;
     min_temp := None; modes := None; optimistic := None;
     payload_available := "online"; payload_not_available := "offline";
     payload_off := "off"; payload_on := "on"; precision := None;
     preset_modes := Some ["eco"; "boost"]; swing_modes := None;
     temperature_unit := Some "C"; temp_step := 1%Z |}.

Definition settings (nm : string) (cap : option Capability.t)
    : @ClimateSetting Number :=
  {| mqtt := {| host := "localhost"; state_prefix := "hmd" |};
     entity := info nm; manual_availability := false; capability := cap |}.

Definition fresh_client : @Client Callback UserData :=
  {| published := []; subscriptions := []; on_message_filtered := ∅;
     userdata := None; connecting := false |}.

(** The instance as the base constructor leaves it. *)
Definition parent_init (nm : string) : @Climate Number Callback UserData :=
  {| _settings := settings nm None;
     _entity_topic := "climate/" +:+ nm;
     state_topic := Some ("hmd/climate/" +:+ nm +:+ "/state");
     mqtt_client := fresh_client;
     command_callbacks := ∅ |}.

Definition climate (nm : string) (cap : option Capability.t)
    (callbacks : gmap string Callback) : @Climate Number Callback UserData :=
  __init__ (parent_init nm) (settings nm cap) callbacks None.

(** The class before any instance has generated its configuration. *)
Definition empty_class : ClimateClass :=
  {| _state_topics := ∅; _command_topics := [] |}.

(** A thermostat with a fan and an action, and one with an action only. *)
Definition fan_and_action : Capability.t :=
  Capability.union (value FAN_MODE) (value ACTION).

Definition hall : @Climate Number Callback UserData :=
  climate "hall" (Some fan_and_action)
    {[ "fan_mode_command_topic" := "on_fan_mode" ]}.

Definition attic : @Climate Number Callback UserData :=
  climate "attic" (Some (value ACTION)) ∅.

(** A thermostat with a fan only. *)
Definition cellar : @Climate Number Callback UserData :=
  climate "cellar" (Some (value FAN_MODE)) ∅.

Definition start (self : @Climate Number Callback UserData)
    : @State Number Callback UserData :=
  {| self := self; cls := empty_class |}.

(** The state of an instance once it has generated its configuration. *)
Definition generated
    (self : @Climate Number Callback UserData) : @State Number Callback UserData :=
  (generate_config (start self)).2.

(** The configuration an instance generates from the empty class. *)
Definition config_of (self : @Climate Number Callback UserData)
    : gmap string (@pyobj Number) :=
  match (generate_config (start self)).1 with
  | Ok cfg => cfg
  | Raise _ => ∅
  end.

End Example.

(** ** Strings and topics *)

Section Strings.

Lemma append_nil_l (s : string) : "" +:+ s = s.
Proof. reflexivity. Qed.

Lemma append_cons (c : ascii) (a s : string) :
  String c a +:+ s = String c (a +:+ s).
Proof. reflexivity. Qed.

Lemma split_slash_not_nil (s : string) : PyStr.split_slash s <> [].
Proof.
  destruct s as [|c s]; simpl; [discriminate|].
  destruct (Ascii.eqb c "/"); [discriminate|].
  destruct (PyStr.split_slash s); discriminate.
Qed.

Lemma split_slash_append (a b : string) :
  PyStr.split_slash (a +:+ String "/" b)
  = PyStr.split_slash a ++ PyStr.split_slash b.
Proof.
  induction a as [|c a IH].
  - reflexivity.
  - rewrite append_cons. simpl. rewrite IH.
    destruct (Ascii.eqb c "/"); [reflexivity|].
    pose proof (split_slash_not_nil a) as Hne.
    destruct (PyStr.split_slash a); [contradiction|reflexivity].
Qed.

Lemma split_slash_level (n : string) :
  PyStr.no_slash n = true -> PyStr.split_slash n = [n].
Proof.
  induction n as [|c n IH]; simpl; [reflexivity|].
  intros [Hc Hn]%andb_prop. apply negb_true_iff in Hc.
  rewrite Hc, (IH Hn). reflexivity.
Qed.

Lemma last_level_append (a n : string) :
  PyStr.no_slash n = true ->
  last (PyStr.split_slash (a +:+ String "/" n)) = Some n.
Proof.
  intros Hn. rewrite split_slash_append, (split_slash_level n Hn).
  apply last_snoc.
Qed.

Lemma match_levels_common (l sub topic : list string) :
  Topic.match_levels sub topic = true ->
  Topic.match_levels (l ++ sub) (l ++ topic) = true.
Proof.
  intros H. induction l as [|s l IH]; simpl; [exact H|].
  destruct (String.eqb s "#"); [reflexivity|].
  rewrite String.eqb_refl, orb_true_r. exact IH.
Qed.

Lemma starts_with_append (c : ascii) (a x y : string) :
  Topic.starts_with c (a +:+ String "/" x)
  = Topic.starts_with c (a +:+ String "/" y).
Proof. destruct a; reflexivity. Qed.

(** The wildcard subscription [base/#] covers every topic below [base]. *)
Lemma wildcard_matches (base rest : string) :
  Topic.matches (base +:+ "/#") (base +:+ String "/" rest) = true.
Proof.
  unfold Topic.matches. apply andb_true_intro. split.
  - change (base +:+ "/#") with (base +:+ String "/" "#").
    rewrite (starts_with_append "#" base "#" rest).
    rewrite (starts_with_append "+" base "#" rest).
    destruct (base +:+ String "/" rest) as [|c s]; [reflexivity|].
    simpl. destruct c as [[] [] [] [] [] [] [] []]; reflexivity.
  - change (base +:+ "/#") with (base +:+ String "/" "#").
    rewrite !split_slash_append. apply match_levels_common.
    pose proof (split_slash_not_nil rest).
    destruct (PyStr.split_slash rest); [contradiction|reflexivity].
Qed.

End Strings.

(** ** Dictionaries *)

Section Dictionaries.

Context {V : Type}.

Lemma dict_get_set (k : string) (v : V) (d : PyDict.t V) :
  PyDict.get k (PyDict.set k v d) = Some v.
Proof.
  induction d as [|[k' v'] d IH]; simpl.
  - rewrite String.eqb_refl. reflexivity.
  - destruct (String.eqb k' k) eqn:E; simpl; rewrite E; [reflexivity|exact IH].
Qed.

Lemma dict_get_set_ne (k k' : string) (v : V) (d : PyDict.t V) :
  k <> k' -> PyDict.get k' (PyDict.set k v d) = PyDict.get k' d.
Proof.
  intros Hne. induction d as [|[k0 v0] d IH]; simpl.
  - apply String.eqb_neq in Hne. rewrite Hne. reflexivity.
  - destruct (String.eqb k0 k) eqn:E; simpl.
    + apply String.eqb_eq in E. subst k0.
      apply String.eqb_neq in Hne. rewrite Hne. reflexivity.
    + rewrite IH. reflexivity.
Qed.

Lemma dict_get_elem_of (k : string) (v : V) (d : PyDict.t V) :
  PyDict.get k d = Some v -> (k, v) ∈ d.
Proof.
  induction d as [|[k0 v0] d IH]; simpl; [discriminate|].
  destruct (String.eqb k0 k) eqn:E.
  - apply String.eqb_eq in E. intros [= ->]. subst. left.
  - intros H. right. exact (IH H).
Qed.

Lemma dict_set_elem_of (k k' : string) (v v' : V) (d : PyDict.t V) :
  (k', v') ∈ PyDict.set k v d -> (k', v') = (k, v) \/ (k', v') ∈ d.
Proof.
  induction d as [|[k0 v0] d IH]; simpl.
  - intros H%list_elem_of_singleton. left. exact H.
  - destruct (String.eqb k0 k) eqn:E.
    + apply String.eqb_eq in E. subst k0.
      intros [H|H]%elem_of_cons; [left; exact H|right; right; exact H].
    + intros [H|H]%elem_of_cons.
      * right. rewrite H. left.
      * destruct (IH H) as [?|?]; [left; assumption|right; right; assumption].
Qed.

(** Storing the value a key already has changes nothing. *)
Lemma dict_set_same (k : string) (v : V) (d : PyDict.t V) :
  PyDict.get k d = Some v -> PyDict.set k v d = d.
Proof.
  induction d as [|[k0 v0] d IH]; simpl; [discriminate|].
  destruct (String.eqb k0 k) eqn:E.
  - intros [= ->]. reflexivity.
  - intros H. rewrite (IH H). reflexivity.
Qed.

Lemma keys_functional {A : Type} (l : list (A * string)) (a b : A) (k : string) :
  NoDup (l.*2) -> (a, k) ∈ l -> (b, k) ∈ l -> a = b.
Proof.
  induction l as [|[a0 k0] l IH]; simpl.
  - intros _ H. inversion H.
  - intros [Hnot Hnd]%NoDup_cons [Ha|Ha]%elem_of_cons [Hb|Hb]%elem_of_cons.
    + congruence.
    + inversion Ha; subst. exfalso. apply Hnot.
      apply (list_elem_of_fmap_2 snd _ _ Hb).
    + inversion Hb; subst. exfalso. apply Hnot.
      apply (list_elem_of_fmap_2 snd _ _ Ha).
    + exact (IH Hnd Ha Hb).
Qed.

End Dictionaries.

(** ** The run of [generate_config] *)

Section Generate.

Context {Number Callback UserData : Type}.
Context {NumberStr : @Str Number} {Base : @Discoverable Number}.
Context {Net : @Broker Callback UserData}.

Local Abbreviation State := (@State Number Callback UserData).
Local Abbreviation Climate := (@Climate Number Callback UserData).
Local Abbreviation Client := (@Client Callback UserData).
Local Abbreviation config := (gmap string (@pyobj Number)).

Lemma adds_state (key : string) :
  @adds Number Callback UserData (addStateTopic key) [(StateTopic, key)].
Proof. intros cfg [o c]. reflexivity. Qed.

Lemma adds_command (key : string) :
  @adds Number Callback UserData (addCommandTopic key) [(CommandTopic, key)].
Proof. intros cfg [o c]. reflexivity. Qed.

Lemma adds_seq (m1 m2 : config -> M State config) (es1 es2 : list (kind * string)) :
  adds m1 es1 -> adds m2 es2 ->
  adds (fun cfg => cfg' <- m1 cfg ;; m2 cfg') (es1 ++ es2).
Proof.
  intros H1 H2 cfg st. unfold bind. rewrite H1, H2. simpl.
  unfold apply_entries. rewrite fold_left_app.
  destruct (fold_left (apply_entry (self st)) es1 (cfg, cls st)); reflexivity.
Qed.

Lemma adds_when (f : flag) (c : Capability.t) (m : config -> M State config)
    (es : list (kind * string)) :
  adds m es -> adds (when_in f c m) (if contains f c then es else []).
Proof.
  intros H cfg st. unfold when_in. destruct (contains f c).
  - apply H.
  - destruct st; reflexivity.
Qed.

Lemma adds_climate_topics (c : Capability.t) :
  @adds Number Callback UserData (add_climate_topics c) (rows c).
Proof.
  unfold add_climate_topics, rows, members. simpl flat_map.
  rewrite app_nil_r.
  repeat (apply adds_seq; [apply adds_when|]);
    try apply adds_when;
    repeat first [apply adds_state | apply adds_command
                 | apply (adds_seq _ _ [_] [_])].
Qed.


Lemma rows_falsy (c : Capability.t) : truthy c = false -> rows c = [].
Proof.
  unfold truthy. intros H%negb_false_iff%N.eqb_eq. subst c. reflexivity.
Qed.

Lemma entry_topic_attr (v : option string) (o : Climate) (e : kind * string) :
  entry_topic (with_state_topic v o) e = entry_topic o e.
Proof. destruct e as [[] k]; reflexivity. Qed.

Lemma apply_entries_attr (v : option string) (o : Climate)
    (es : list (kind * string)) (p : config * ClimateClass) :
  apply_entries (with_state_topic v o) es p = apply_entries o es p.
Proof.
  revert p. induction es as [|[[] k] es IH]; intros p; simpl; [reflexivity|..];
    rewrite IH; reflexivity.
Qed.

(** [generate_config] raises exactly when the parent configuration has no
    ["state_topic"]; otherwise it returns the parent configuration without
    that key and with the entries of the capability set, and leaves the
    instance without the [state_topic] attribute. *)
Lemma generate_config_run (st : State) :
  generate_config st =
  match parent_config (self st) !! "state_topic" with
  | None =>
      (Raise (KeyError "state_topic"), on_self (with_state_topic None) st)
  | Some _ =>
      let p := apply_entries (self st)
                 (rows_of (capability (_settings (self st))))
                 (delete "state_topic" (parent_config (self st)), cls st) in
      (Ok p.1, {| self := with_state_topic None (self st); cls := p.2 |})
  end.
Proof.
  destruct st as [o cl]. unfold generate_config, bind. simpl.
  unfold parent_config. simpl.
  destruct (super_generate_config (_settings o) (_entity_topic o)
              (Some "bogus") !! "state_topic") as [x|] eqn:Hx.
  - unfold del_item. rewrite Hx. simpl.
    destruct (capability (_settings o)) as [c|] eqn:Hc; simpl; [|reflexivity].
    destruct (truthy c) eqn:Ht.
    + rewrite adds_climate_topics. simpl.
      rewrite apply_entries_attr. reflexivity.
    + rewrite (rows_falsy c Ht). reflexivity.
  - unfold del_item. rewrite Hx. reflexivity.
Qed.


(** *** The entries of a capability set *)

Lemma elem_of_rows (c : Capability.t) (e : kind * string) :
  e ∈ rows c <-> exists f, contains f c = true /\ e ∈ row f.
Proof.
  unfold rows. rewrite list_elem_of_In, in_flat_map. split.
  - intros (f & _ & H). exists f. destruct (contains f c); [|destruct H].
    split; [reflexivity|]. apply list_elem_of_In. exact H.
  - intros (f & Hc & H). exists f. split.
    + destruct f; unfold members; simpl; tauto.
    + rewrite Hc. apply list_elem_of_In. exact H.
Qed.

Lemma elem_of_row_state (f : flag) (k : string) :
  (StateTopic, k) ∈ row f <-> state_key f = Some k.
Proof.
  unfold row. destruct (state_key f), (command_key f); simpl;
    rewrite ?elem_of_cons, ?elem_of_nil; split; intros H;
    repeat destruct H as [H|H]; try congruence; try (inversion H; fail);
    try (inversion H; subst; auto; fail); auto.
Qed.

Lemma elem_of_row_command (f : flag) (k : string) :
  (CommandTopic, k) ∈ row f <-> command_key f = Some k.
Proof.
  unfold row. destruct (state_key f), (command_key f); simpl;
    rewrite ?elem_of_cons, ?elem_of_nil; split; intros H;
    repeat destruct H as [H|H]; try congruence; try (inversion H; fail);
    try (inversion H; subst; auto; fail); auto.
Qed.

(** Every key of the table stands for one kind of topic of one
    capability. *)
Lemma table_keys_NoDup : NoDup ((flat_map row members).*2).
Proof. apply (bool_decide_unpack _). vm_compute. reflexivity. Qed.

Lemma rows_subset_table (c : Capability.t) (e : kind * string) :
  e ∈ rows c -> e ∈ flat_map row members.
Proof.
  intros (f & _ & H)%elem_of_rows.
  apply list_elem_of_In, in_flat_map. exists f. split.
  - destruct f; unfold members; simpl; tauto.
  - apply list_elem_of_In. exact H.
Qed.

Lemma rows_kind_unique (c : Capability.t) (kd kd' : kind) (k : string) :
  (kd, k) ∈ rows c -> (kd', k) ∈ rows c -> kd = kd'.
Proof.
  intros H H'. apply (keys_functional (flat_map row members) kd kd' k).
  - apply table_keys_NoDup.
  - apply (rows_subset_table c _ H).
  - apply (rows_subset_table c _ H').
Qed.

(** *** Lookups after a run of entries *)

Lemma apply_entries_snoc (o : Climate) (es : list (kind * string))
    (e : kind * string) (p : config * ClimateClass) :
  apply_entries o (es ++ [e]) p = apply_entry o (apply_entries o es p) e.
Proof. unfold apply_entries. rewrite fold_left_app. reflexivity. Qed.

Lemma config_lookup_absent (o : Climate) (es : list (kind * string))
    (p : config * ClimateClass) (k : string) :
  (forall kd, (kd, k) ∉ es) ->
  (apply_entries o es p).1 !! k = p.1 !! k.
Proof.
  induction es as [|[kd k'] es IH] using rev_ind; intros Hno; [reflexivity|].
  rewrite apply_entries_snoc.
  assert (k' <> k) as Hne.
  { intros ->. apply (Hno kd). apply elem_of_app. right. left. }
  assert ((apply_entries o es p).1 !! k = p.1 !! k) as <-.
  { apply IH. intros kd0 Hin. apply (Hno kd0), elem_of_app. left. exact Hin. }
  destruct kd; simpl; apply lookup_insert_ne; exact Hne.
Qed.

Lemma config_lookup_present (o : Climate) (es : list (kind * string))
    (p : config * ClimateClass) (kd : kind) (k : string) :
  (kd, k) ∈ es ->
  (forall kd', (kd', k) ∈ es -> kd' = kd) ->
  (apply_entries o es p).1 !! k = Some (PyStr (entry_topic o (kd, k))).
Proof.
  induction es as [|[kd0 k0] es IH] using rev_ind; intros Hin Huniq.
  - inversion Hin.
  - rewrite apply_entries_snoc.
    destruct (decide (k0 = k)) as [->|Hne].
    + assert (kd0 = kd) as ->.
      { apply Huniq, elem_of_app. right. left. }
      destruct kd; simpl; apply lookup_insert_eq.
    + assert ((apply_entries o es p).1 !! k
              = Some (PyStr (entry_topic o (kd, k)))) as <-.
      { apply IH.
        - apply elem_of_app in Hin as [Hin|Hin]; [exact Hin|].
          apply list_elem_of_singleton in Hin. congruence.
        - intros kd' H'. apply Huniq, elem_of_app. left. exact H'. }
      destruct kd0; simpl; apply lookup_insert_ne; exact Hne.
Qed.

Lemma state_topics_lookup_absent (o : Climate) (es : list (kind * string))
    (p : config * ClimateClass) (k : string) :
  (StateTopic, k) ∉ es ->
  _state_topics (apply_entries o es p).2 !! k = _state_topics p.2 !! k.
Proof.
  induction es as [|[kd0 k0] es IH] using rev_ind; intros Hno; [reflexivity|].
  rewrite apply_entries_snoc.
  assert (_state_topics (apply_entries o es p).2 !! k = _state_topics p.2 !! k)
    as <-.
  { apply IH. intros Hin. apply Hno, elem_of_app. left. exact Hin. }
  destruct kd0; simpl; [|reflexivity].
  apply lookup_insert_ne. intros ->. apply Hno, elem_of_app. right. left.
Qed.

Lemma state_topics_lookup_present (o : Climate) (es : list (kind * string))
    (p : config * ClimateClass) (k : string) :
  (StateTopic, k) ∈ es ->
  _state_topics (apply_entries o es p).2 !! k = Some (state_topic_of o k).
Proof.
  induction es as [|[kd0 k0] es IH] using rev_ind; intros Hin.
  - inversion Hin.
  - rewrite apply_entries_snoc.
    destruct (decide ((kd0, k0) = (StateTopic, k))) as [[= -> ->]|Hne].
    + simpl. apply lookup_insert_eq.
    + assert (_state_topics (apply_entries o es p).2 !! k
              = Some (state_topic_of o k)) as <-.
      { apply IH. apply elem_of_app in Hin as [Hin|Hin]; [exact Hin|].
        apply list_elem_of_singleton in Hin. congruence. }
      destruct kd0; simpl; [|reflexivity].
      apply lookup_insert_ne. congruence.
Qed.

Lemma command_topics_get_absent (o : Climate) (es : list (kind * string))
    (p : config * ClimateClass) (k : string) :
  (CommandTopic, k) ∉ es ->
  PyDict.get k (_command_topics (apply_entries o es p).2)
  = PyDict.get k (_command_topics p.2).
Proof.
  induction es as [|[kd0 k0] es IH] using rev_ind; intros Hno; [reflexivity|].
  rewrite apply_entries_snoc.
  assert (PyDict.get k (_command_topics (apply_entries o es p).2)
          = PyDict.get k (_command_topics p.2)) as <-.
  { apply IH. intros Hin. apply Hno, elem_of_app. left. exact Hin. }
  destruct kd0; simpl; [reflexivity|].
  apply dict_get_set_ne. intros ->. apply Hno, elem_of_app. right. left.
Qed.

Lemma command_topics_get_present (o : Climate) (es : list (kind * string))
    (p : config * ClimateClass) (k : string) :
  (CommandTopic, k) ∈ es ->
  PyDict.get k (_command_topics (apply_entries o es p).2)
  = Some (command_topic_of o k).
Proof.
  induction es as [|[kd0 k0] es IH] using rev_ind; intros Hin.
  - inversion Hin.
  - rewrite apply_entries_snoc.
    destruct (decide ((kd0, k0) = (CommandTopic, k))) as [[= -> ->]|Hne].
    + simpl. apply dict_get_set.
    + assert (PyDict.get k (_command_topics (apply_entries o es p).2)
              = Some (command_topic_of o k)) as <-.
      { apply IH. apply elem_of_app in Hin as [Hin|Hin]; [exact Hin|].
        apply list_elem_of_singleton in Hin. congruence. }
      destruct kd0; simpl; [reflexivity|].
      apply dict_get_set_ne. congruence.
Qed.

(** What the command dictionary holds after a run: what it held, or a
    command topic of the instance. *)
Lemma command_topics_elem_of (o : Climate) (es : list (kind * string))
    (p : config * ClimateClass) (k v : string) :
  (k, v) ∈ _command_topics (apply_entries o es p).2 ->
  (k, v) ∈ _command_topics p.2
  \/ ((CommandTopic, k) ∈ es /\ v = command_topic_of o k).
Proof.
  induction es as [|[kd0 k0] es IH] using rev_ind; [left; assumption|].
  rewrite apply_entries_snoc. destruct kd0; simpl.
  - intros H. destruct (IH H) as [?|[? ?]]; [left; assumption|].
    right. split; [apply elem_of_app; left; assumption|assumption].
  - intros [[= -> ->]|H]%dict_set_elem_of.
    + right. split; [apply elem_of_app; right; left|reflexivity].
    + destruct (IH H) as [?|[? ?]]; [left; assumption|].
      right. split; [apply elem_of_app; left; assumption|assumption].
Qed.


Lemma table_without_state_topic : "state_topic" ∉ (flat_map row members).*2.
Proof. apply (bool_decide_unpack _). vm_compute. reflexivity. Qed.

Lemma rows_without_state_topic (c : Capability.t) (kd : kind) :
  (kd, "state_topic") ∉ rows c.
Proof.
  intros H%rows_subset_table. apply table_without_state_topic.
  apply (list_elem_of_fmap_2 snd _ _ H).
Qed.

(** The entries of a present capability, in the configuration and in the
    dictionaries of the class. *)
Lemma apply_rows_state (o : Climate) (c : Capability.t)
    (p : config * ClimateClass) (f : flag) (key : string) :
  contains f c = true -> state_key f = Some key ->
  (apply_entries o (rows c) p).1 !! key = Some (PyStr (state_topic_of o key))
  /\ _state_topics (apply_entries o (rows c) p).2 !! key
     = Some (state_topic_of o key).
Proof.
  intros Hf Hk.
  assert ((StateTopic, key) ∈ rows c) as Hin.
  { apply elem_of_rows. exists f. split; [exact Hf|].
    apply elem_of_row_state. exact Hk. }
  split.
  - apply (config_lookup_present o (rows c) p StateTopic key Hin).
    intros kd' H'. exact (rows_kind_unique c _ _ _ H' Hin).
  - apply state_topics_lookup_present. exact Hin.
Qed.

Lemma apply_rows_command (o : Climate) (c : Capability.t)
    (p : config * ClimateClass) (f : flag) (key : string) :
  contains f c = true -> command_key f = Some key ->
  (apply_entries o (rows c) p).1 !! key = Some (PyStr (command_topic_of o key))
  /\ PyDict.get key (_command_topics (apply_entries o (rows c) p).2)
     = Some (command_topic_of o key).
Proof.
  intros Hf Hk.
  assert ((CommandTopic, key) ∈ rows c) as Hin.
  { apply elem_of_rows. exists f. split; [exact Hf|].
    apply elem_of_row_command. exact Hk. }
  split.
  - apply (config_lookup_present o (rows c) p CommandTopic key Hin).
    intros kd' H'. exact (rows_kind_unique c _ _ _ H' Hin).
  - apply command_topics_get_present. exact Hin.
Qed.

(** A key that belongs to no present capability is left as it was. *)
Lemma apply_rows_other (o : Climate) (c : Capability.t)
    (p : config * ClimateClass) (key : string) :
  (forall f, contains f c = true ->
             state_key f <> Some key /\ command_key f <> Some key) ->
  (apply_entries o (rows c) p).1 !! key = p.1 !! key
  /\ _state_topics (apply_entries o (rows c) p).2 !! key
     = _state_topics p.2 !! key
  /\ PyDict.get key (_command_topics (apply_entries o (rows c) p).2)
     = PyDict.get key (_command_topics p.2).
Proof.
  intros Hno.
  assert (forall kd, (kd, key) ∉ rows c) as Hout.
  { intros kd (f & Hf & Hin)%elem_of_rows. destruct (Hno f Hf) as [Hs Hc].
    destruct kd.
    - apply elem_of_row_state in Hin. contradiction.
    - apply elem_of_row_command in Hin. contradiction. }
  split; [|split].
  - apply config_lookup_absent. exact Hout.
  - apply state_topics_lookup_absent, Hout.
  - apply command_topics_get_absent, Hout.
Qed.

Lemma generate_config_Ok (st : State) :
  is_Some (parent_config (self st) !! "state_topic") ->
  generate_config st =
  (Ok (apply_entries (self st) (rows_of (capability (_settings (self st))))
         (delete "state_topic" (parent_config (self st)), cls st)).1,
   {| self := with_state_topic None (self st);
      cls := (apply_entries (self st)
                (rows_of (capability (_settings (self st))))
                (delete "state_topic" (parent_config (self st)), cls st)).2 |}).
Proof.
  intros [x Hx]. rewrite generate_config_run, Hx. reflexivity.
Qed.

Lemma generate_config_Ok_inv (st st' : State) (cfg : config) :
  generate_config st = (Ok cfg, st') ->
  is_Some (parent_config (self st) !! "state_topic").
Proof.
  rewrite generate_config_run.
  destruct (parent_config (self st) !! "state_topic"); [eauto|discriminate].
Qed.


(** *** The topic entries of the discovery payload *)

(** C1. When the parent configuration can be generated, [generate_config]
    returns, and for every capability of the flag set the configuration
    holds its state entry, "{state_prefix}/{entity_topic}/state/" followed
    by the key without the suffixes "_topic" and "_state", and its command
    entry, "{state_prefix}/{entity_topic}/command/" followed by the key
    without the suffixes "_topic" and "_command"; FAN_MODE gives
    .../state/fan_mode and .../command/fan_mode; a key of no present
    capability is as the parent left it. *)
Theorem generate_config_topic_entries (st : State) (c : Capability.t) :
  capability (_settings (self st)) = Some c ->
  truthy c = true ->
  is_Some (parent_config (self st) !! "state_topic") ->
  exists (cfg : config) (st' : State),
    generate_config st = (Ok cfg, st')
    /\ (forall f key, contains f c = true -> state_key f = Some key ->
          cfg !! key =
          Some (PyStr (state_prefix (mqtt (_settings (self st))) +:+ "/"
                       +:+ _entity_topic (self st) +:+ "/state/"
                       +:+ PyStr.removesuffix
                             (PyStr.removesuffix key "_topic") "_state")))
    /\ (forall f key, contains f c = true -> command_key f = Some key ->
          cfg !! key =
          Some (PyStr (state_prefix (mqtt (_settings (self st))) +:+ "/"
                       +:+ _entity_topic (self st) +:+ "/command/"
                       +:+ PyStr.removesuffix
                             (PyStr.removesuffix key "_topic") "_command")))
    /\ (contains FAN_MODE c = true ->
          cfg !! "fan_mode_state_topic" =
          Some (PyStr (state_prefix (mqtt (_settings (self st))) +:+ "/"
                       +:+ _entity_topic (self st) +:+ "/state/fan_mode"))
          /\ cfg !! "fan_mode_command_topic" =
             Some (PyStr (state_prefix (mqtt (_settings (self st))) +:+ "/"
                          +:+ _entity_topic (self st) +:+ "/command/fan_mode")))
    /\ (forall key,
          (forall f, contains f c = true ->
                     state_key f <> Some key /\ command_key f <> Some key) ->
          cfg !! key = delete "state_topic" (parent_config (self st)) !! key).
Proof.
  intros Hc _ Hp. eexists _, _. split; [apply generate_config_Ok, Hp|].
  rewrite Hc. simpl rows_of. repeat split.
  - intros f key Hf Hk. apply (apply_rows_state _ c _ f key Hf Hk).
  - intros f key Hf Hk. apply (apply_rows_command _ c _ f key Hf Hk).
  - apply (apply_rows_state _ c _ FAN_MODE "fan_mode_state_topic" H eq_refl).
  - apply (apply_rows_command _ c _ FAN_MODE "fan_mode_command_topic" H eq_refl).
  - intros key Hno.
    exact (proj1 (apply_rows_other (self st) c
                    (delete "state_topic" (parent_config (self st)), cls st)
                    key Hno)).
Qed.

(** C2, as the code has it. The table has 12 flags. For every flag of the
    capability set [generate_config] produces the topics of its row, in the
    configuration and in the dictionaries of the class: a state topic and a
    command topic for the eight flags FAN_MODE, MODE, PRESET_MODE,
    SWING_MODE, TARGET_HUMIDITY, TARGET_TEMPERATURE,
    TARGET_HIGH_TEMPERATURE and TARGET_LOW_TEMPERATURE, a state topic only
    for ACTION, CURRENT_HUMIDITY and CURRENT_TEMPERATURE, a command topic
    only for POWER. *)
Theorem generate_config_table (st st' : State) (cfg : config)
    (c : Capability.t) (f : flag) :
  generate_config st = (Ok cfg, st') ->
  capability (_settings (self st)) = Some c ->
  contains f c = true ->
  length members = 12
  /\ (forall key, state_key f = Some key ->
        cfg !! key = Some (PyStr (state_topic_of (self st) key))
        /\ _state_topics (cls st') !! key = Some (state_topic_of (self st) key))
  /\ (forall key, command_key f = Some key ->
        cfg !! key = Some (PyStr (command_topic_of (self st) key))
        /\ PyDict.get key (_command_topics (cls st'))
           = Some (command_topic_of (self st) key))
  /\ (f ∈ [FAN_MODE; MODE; PRESET_MODE; SWING_MODE; TARGET_HUMIDITY;
           TARGET_TEMPERATURE; TARGET_HIGH_TEMPERATURE; TARGET_LOW_TEMPERATURE]
      -> is_Some (state_key f) /\ is_Some (command_key f))
  /\ (f ∈ [ACTION; CURRENT_HUMIDITY; CURRENT_TEMPERATURE]
      -> is_Some (state_key f) /\ command_key f = None
         /\ (c = value f -> _command_topics (cls st') = _command_topics (cls st)))
  /\ (f = POWER
      -> state_key f = None /\ is_Some (command_key f)
         /\ (c = value f -> _state_topics (cls st') = _state_topics (cls st))).
Proof.
  intros Hrun Hc Hf.
  pose proof (generate_config_Ok_inv _ _ _ Hrun) as Hp.
  rewrite (generate_config_Ok st Hp), Hc in Hrun. simpl rows_of in Hrun.
  injection Hrun as <- <-. simpl cls.
  split; [reflexivity|]. split; [|split; [|split; [|split]]].
  - intros key Hk. apply (apply_rows_state _ c _ f key Hf Hk).
  - intros key Hk. apply (apply_rows_command _ c _ f key Hf Hk).
  - intros Hin. repeat (apply elem_of_cons in Hin as [->|Hin]);
      [split; eexists; reflexivity..|inversion Hin].
  - intros Hin. repeat (apply elem_of_cons in Hin as [->|Hin]);
      [..|inversion Hin];
      (split; [eexists; reflexivity|]; split; [reflexivity|]);
      intros ->; reflexivity.
  - intros ->. split; [reflexivity|]. split; [eexists; reflexivity|].
    intros ->. reflexivity.
Qed.

(** C10. The dictionary [generate_config] returns has no "state_topic"
    key and the instance is left without the [state_topic] attribute; the
    method returns whenever the parent configuration has the key, and
    raises [KeyError] on deleting it otherwise. *)
Theorem generate_config_without_state_topic (st : State) :
  match generate_config st with
  | (Ok cfg, st') =>
      cfg !! "state_topic" = None
      /\ state_topic (self st') = None
      /\ is_Some (parent_config (self st) !! "state_topic")
  | (Raise e, st') =>
      e = KeyError "state_topic"
      /\ state_topic (self st') = None
      /\ parent_config (self st) !! "state_topic" = None
  end.
Proof.
  rewrite generate_config_run.
  destruct (parent_config (self st) !! "state_topic") as [x|] eqn:Hx.
  - simpl. split; [|split; [reflexivity|eauto]].
    rewrite config_lookup_absent.
    + apply lookup_delete_eq.
    + intros kd. destruct (capability (_settings (self st))) as [c|].
      * apply rows_without_state_topic.
      * apply not_elem_of_nil.
  - simpl. repeat split; reflexivity.
Qed.


(** *** Determinism *)

Lemma apply_entries_config (o o' : Climate) (es : list (kind * string))
    (cfg : config) (cl cl' : ClimateClass) :
  (forall e, entry_topic o e = entry_topic o' e) ->
  (apply_entries o es (cfg, cl)).1 = (apply_entries o' es (cfg, cl')).1.
Proof.
  intros Ho. revert cfg cl cl'.
  induction es as [|[kd k] es IH]; intros cfg cl cl'; [reflexivity|].
  simpl. pose proof (Ho (kd, k)) as Hk.
  destruct kd; simpl in *; rewrite Hk; apply IH.
Qed.

(** A run of entries that the class already holds leaves the class as it
    is. *)
Lemma apply_entries_stored (o : Climate) (es : list (kind * string))
    (cfg : config) (cl : ClimateClass) :
  (forall k, (StateTopic, k) ∈ es ->
             _state_topics cl !! k = Some (state_topic_of o k)) ->
  (forall k, (CommandTopic, k) ∈ es ->
             PyDict.get k (_command_topics cl) = Some (command_topic_of o k)) ->
  (apply_entries o es (cfg, cl)).2 = cl.
Proof.
  revert cfg. induction es as [|[kd k] es IH]; intros cfg Hs Hc; [reflexivity|].
  simpl. destruct kd; simpl.
  - rewrite (insert_id (_state_topics cl) k _ (Hs k ltac:(left))).
    destruct cl as [s d]. simpl. apply IH.
    + intros k' H'. apply Hs. right. exact H'.
    + intros k' H'. apply Hc. right. exact H'.
  - rewrite (dict_set_same _ _ _ (Hc k ltac:(left))).
    destruct cl as [s d]. simpl. apply IH.
    + intros k' H'. apply Hs. right. exact H'.
    + intros k' H'. apply Hc. right. exact H'.
Qed.

Lemma apply_entries_twice (o : Climate) (es : list (kind * string))
    (cfg : config) (cl : ClimateClass) :
  apply_entries o es (cfg, (apply_entries o es (cfg, cl)).2)
  = apply_entries o es (cfg, cl).
Proof.
  apply injective_projections.
  - apply apply_entries_config. reflexivity.
  - apply apply_entries_stored.
    + intros k Hk. apply state_topics_lookup_present. exact Hk.
    + intros k Hk. apply command_topics_get_present. exact Hk.
Qed.

(** C7. The configuration [generate_config] returns is a function of the
    settings (with the entity) and of the topic of the entity: it is the
    same for every [state_topic] attribute, client, callbacks and class
    dictionaries the instance is called with; and a second call on the same
    instance returns what the first returned and changes nothing more. *)
Theorem generate_config_deterministic (st : State) (attr : option string)
    (client : Client) (callbacks : gmap string Callback) (cl : ClimateClass) :
  (generate_config
     {| self := {| _settings := _settings (self st);
                   _entity_topic := _entity_topic (self st);
                   state_topic := attr;
                   mqtt_client := client;
                   command_callbacks := callbacks |};
        cls := cl |}).1
  = (generate_config st).1
  /\ generate_config (generate_config st).2 = generate_config st.
Proof.
  split.
  - rewrite !generate_config_run. unfold parent_config. simpl.
    destruct (super_generate_config (_settings (self st))
                (_entity_topic (self st)) (Some "bogus") !! "state_topic");
      [|reflexivity].
    simpl. f_equal. apply apply_entries_config.
    intros [[] k]; reflexivity.
  - rewrite (generate_config_run st).
    destruct (parent_config (self st) !! "state_topic") as [x|] eqn:Hx.
    + simpl. rewrite generate_config_run. simpl.
      change (parent_config (with_state_topic None (self st)))
        with (parent_config (self st)).
      rewrite Hx, apply_entries_attr, apply_entries_twice. reflexivity.
    + simpl. rewrite generate_config_run. simpl.
      change (parent_config (with_state_topic None (self st)))
        with (parent_config (self st)).
      rewrite Hx. reflexivity.
Qed.

End Generate.

(** ** The state setters *)

Section Setters.

Context {Number Callback UserData : Type}.
Context {NumberStr : @Str Number} {Base : @Discoverable Number}.
Context {Net : @Broker Callback UserData}.

Local Abbreviation State := (@State Number Callback UserData).
Local Abbreviation Climate := (@Climate Number Callback UserData).
Local Abbreviation Client := (@Client Callback UserData).
Local Abbreviation ClimateInfo := (@ClimateInfo Number).
Local Abbreviation ClimateSetting := (@ClimateSetting Number).
Local Abbreviation setter := (@setter Number).
Local Abbreviation config := (gmap string (@pyobj Number)).

Lemma capability_state_helper_run (f : flag) (key state : string) (st : State) :
  (topic <- state_topics_getitem key ;;
   _capability_state_helper f state topic) st
  = looks_up_and_sends f key state st.
Proof.
  unfold looks_up_and_sends, state_topics_getitem, bind, gets. simpl.
  destruct (_state_topics (cls st) !! key) as [topic|]; [|reflexivity].
  unfold _capability_state_helper, bind, gets. simpl.
  destruct (capability (_settings (self st))) as [c|]; [|reflexivity].
  destruct (contains f c); [|reflexivity].
  unfold sends, _state_helper, publish. simpl.
  destruct (publish_rc (mqtt_client (self st)) topic state =? MQTT_ERR_SUCCESS)%Z;
    reflexivity.
Qed.

Lemma validated_run (what m key : string) (f : flag)
    (field : ClimateInfo -> option (list string)) (st : State) :
  (accepted_ <- gets (fun st : State => field (_entity (self st))) ;;
   _ <- check_accepted what m accepted_ ;;
   topic <- state_topics_getitem key ;;
   _capability_state_helper f m topic) st
  = match field (_entity (self st)) with
    | None => (Raise (TypeError NoneType_not_iterable), st)
    | Some l =>
        if bool_decide (m ∈ l) then looks_up_and_sends f key m st
        else (Raise (RuntimeError (NotValidValue what m l)), st)
    end.
Proof.
  unfold bind at 1. unfold gets at 1.
  destruct (field (_entity (self st))) as [l|]; [|reflexivity].
  unfold bind at 1. unfold check_accepted, PyStr.contains.
  destruct (bool_decide (m ∈ l)); [|reflexivity].
  simpl. apply capability_state_helper_run.
Qed.

(** Every setter, in one equation. *)
Lemma call_run (op : setter) (st : State) :
  call op st =
  match setter_mode op (_entity (self st)) with
  | Some (what, m, None) => (Raise (TypeError NoneType_not_iterable), st)
  | Some (what, m, Some l) =>
      if bool_decide (m ∈ l)
      then looks_up_and_sends (setter_flag op) (setter_key op)
             (setter_payload op) st
      else (Raise (RuntimeError (NotValidValue what m l)), st)
  | None =>
      looks_up_and_sends (setter_flag op) (setter_key op) (setter_payload op) st
  end.
Proof.
  destruct op; simpl;
    first [ apply capability_state_helper_run
          | apply (validated_run _ _ _ _ fan_modes)
          | apply (validated_run _ _ _ _ modes)
          | apply (validated_run _ _ _ _ preset_modes)
          | apply (validated_run _ _ _ _ swing_modes) ].
Qed.

(** The setters read the key under which [generate_config] stores the
    state topic of their capability. *)
Lemma setter_key_state_key (op : setter) :
  state_key (setter_flag op) = Some (setter_key op).
Proof. destruct op; reflexivity. Qed.

Lemma call_accepted (op : setter) (st : State) :
  accepted op (_entity (self st)) ->
  call op st
  = looks_up_and_sends (setter_flag op) (setter_key op) (setter_payload op) st.
Proof.
  unfold accepted. rewrite call_run.
  destruct (setter_mode op (_entity (self st))) as [[[what m] l]|];
    [|reflexivity].
  intros (l' & -> & Hin). rewrite (bool_decide_eq_true_2 _ Hin). reflexivity.
Qed.


Lemma state_key_inj (f f' : flag) (k : string) :
  state_key f = Some k -> state_key f' = Some k -> f = f'.
Proof. destruct f, f'; simpl; intros H H'; congruence. Qed.

(** After [generate_config] the class holds the state topic of every
    capability of the instance under the key its setter reads. *)
Lemma generated_state_topic (st st1 : State) (cfg : config)
    (c : Capability.t) (op : setter) :
  generate_config st = (Ok cfg, st1) ->
  capability (_settings (self st)) = Some c ->
  contains (setter_flag op) c = true ->
  self st1 = with_state_topic None (self st)
  /\ cfg !! setter_key op
     = Some (PyStr (state_topic_of (self st) (setter_key op)))
  /\ _state_topics (cls st1) !! setter_key op
     = Some (state_topic_of (self st) (setter_key op)).
Proof.
  intros Hrun Hc Hf.
  pose proof (generate_config_Ok_inv _ _ _ Hrun) as Hp.
  rewrite (generate_config_Ok st Hp), Hc in Hrun. simpl rows_of in Hrun.
  injection Hrun as <- <-. simpl. split; [reflexivity|].
  apply (apply_rows_state _ c _ _ _ Hf (setter_key_state_key op)).
Qed.

(** A setter whose argument is valid, on an instance that has the
    capability, with [topic] stored under its key: one message. *)
Lemma call_sends (op : setter) (st : State) (c : Capability.t) (topic : string) :
  accepted op (_entity (self st)) ->
  capability (_settings (self st)) = Some c ->
  contains (setter_flag op) c = true ->
  _state_topics (cls st) !! setter_key op = Some topic ->
  call op st = sends (setter_payload op) topic st.
Proof.
  intros Ha Hc Hf Ht. rewrite (call_accepted op st Ha).
  unfold looks_up_and_sends. rewrite Ht, Hc, Hf. reflexivity.
Qed.

(** The guard of [_capability_state_helper]: without the capability it
    raises and hands nothing to the client. *)
Lemma capability_state_helper_guard (f : flag) (state topic : string)
    (st : State) (c : Capability.t) :
  capability (_settings (self st)) = Some c ->
  contains f c = false ->
  _capability_state_helper f state topic st
  = (Raise (RuntimeError (Literal "Action is not configured for this entity!")),
     st).
Proof.
  intros Hc Hf. unfold _capability_state_helper, bind, gets. simpl.
  rewrite Hc, Hf. reflexivity.
Qed.


(** C5, as the code has it. A mode setter whose list is set raises the
    "not valid value" [RuntimeError] if and only if the mode is not in the
    list of the entity, and then the state is as it was: nothing is
    published. (A mode of the list can still end in a [RuntimeError] of
    [_capability_state_helper].) *)
Theorem mode_setter_validation (st : State) (op : setter) (what m : string)
    (l : list string) :
  setter_mode op (_entity (self st)) = Some (what, m, Some l) ->
  ((call op st).1 = Raise (RuntimeError (NotValidValue what m l)) <-> m ∉ l)
  /\ (m ∉ l -> (call op st).2 = st).
Proof.
  intros Hm. rewrite call_run, Hm.
  destruct (bool_decide (m ∈ l)) eqn:Hin.
  - apply bool_decide_eq_true_1 in Hin. split; [|intros; contradiction].
    split; [|intros; contradiction].
    unfold looks_up_and_sends, sends.
    destruct (_state_topics (cls st) !! setter_key op); [|discriminate].
    destruct (capability (_settings (self st))) as [c|]; [|discriminate].
    destruct (contains (setter_flag op) c); [|discriminate].
    simpl. destruct (_ =? _)%Z; discriminate.
  - apply bool_decide_eq_false_1 in Hin. simpl. tauto.
Qed.

(** C6, what the code does. On an instance without the capability of a
    setter, whose class dictionary has no topic under the key of the setter
    (the instance did not generate one), the setter raises [KeyError] on
    the lookup of the topic, before the guard of
    [_capability_state_helper] is reached. Nothing is published. *)
Theorem setter_unconfigured_KeyError (st st1 : State) (cfg : config)
    (c : Capability.t) (op : setter) :
  generate_config st = (Ok cfg, st1) ->
  _state_topics (cls st) !! setter_key op = None ->
  capability (_settings (self st)) = Some c ->
  contains (setter_flag op) c = false ->
  accepted op (_entity (self st)) ->
  call op st1 = (Raise (KeyError (setter_key op)), st1).
Proof.
  intros Hrun Hempty Hc Hf Ha.
  pose proof (generate_config_Ok_inv _ _ _ Hrun) as Hp.
  rewrite (generate_config_Ok st Hp), Hc in Hrun. simpl rows_of in Hrun.
  injection Hrun as <- <-.
  rewrite call_accepted by exact Ha.
  unfold looks_up_and_sends. simpl cls.
  rewrite state_topics_lookup_absent; [simpl; rewrite Hempty; reflexivity|].
  intros (f & Hfc & Hin)%elem_of_rows. apply elem_of_row_state in Hin.
  rewrite (state_key_inj _ _ _ Hin (setter_key_state_key op)) in Hfc.
  congruence.
Qed.


(** *** The constructor *)

Lemma contains_falsy (f : flag) (c : Capability.t) :
  truthy c = false -> contains f c = false.
Proof.
  unfold truthy. intros H%negb_false_iff%N.eqb_eq. subst c.
  destruct f; reflexivity.
Qed.

(** C9. The constructor gives [fan_modes], [modes] and [swing_modes] their
    default list exactly when FAN_MODE, MODE, SWING_MODE is in the
    capability set and the field is [None] or empty; a list that is set is
    kept, and so is every other field of the entity and of the settings. *)
Theorem init_installs_defaults (self0 : Climate) (settings : ClimateSetting)
    (callbacks : gmap string Callback) (user_data : option UserData) :
  let e := entity settings in
  let e' := _entity (__init__ self0 settings callbacks user_data) in
  let s' := _settings (__init__ self0 settings callbacks user_data) in
  fan_modes e' =
    (if configured FAN_MODE settings && not_ (fan_modes e)
     then Some ["auto"; "low"; "medium"; "high"] else fan_modes e)
  /\ modes e' =
    (if configured MODE settings && not_ (modes e)
     then Some ["auto"; "off"; "cool"; "heat"; "dry"; "fan_only"] else modes e)
  /\ swing_modes e' =
    (if configured SWING_MODE settings && not_ (swing_modes e)
     then Some ["on"; "off"] else swing_modes e)
  /\ preset_modes e' = preset_modes e
  /\ name e' = name e /\ component e' = component e
  /\ initial e' = initial e
  /\ max_humidity e' = max_humidity e /\ max_temp e' = max_temp e
  /\ min_humidity e' = min_humidity e /\ min_temp e' = min_temp e
  /\ optimistic e' = optimistic e
  /\ payload_available e' = payload_available e
  /\ payload_not_available e' = payload_not_available e
  /\ payload_off e' = payload_off e /\ payload_on e' = payload_on e
  /\ precision e' = precision e
  /\ temperature_unit e' = temperature_unit e /\ temp_step e' = temp_step e
  /\ mqtt s' = mqtt settings /\ capability s' = capability settings
  /\ manual_availability s' = manual_availability settings.
Proof.
  destruct settings as [mq e mav cap].
  destruct e as [nm co fm ini mxh mxt mnh mnt mo opt pa pna poff pon pr pm sm
                 tu ts].
  unfold __init__, install_defaults, configured, _entity. simpl.
  destruct cap as [c|]; simpl; [|repeat split].
  destruct (truthy c) eqn:Ht.
  - destruct (contains FAN_MODE c), (contains MODE c), (contains SWING_MODE c),
      fm as [[|? ?]|], mo as [[|? ?]|], sm as [[|? ?]|];
      simpl; repeat split.
  - rewrite !(contains_falsy _ c Ht). simpl. repeat split.
Qed.

Lemma init_capability (self0 : Climate) (settings : ClimateSetting)
    (callbacks : gmap string Callback) (user_data : option UserData) :
  capability (_settings (__init__ self0 settings callbacks user_data))
  = capability settings.
Proof.
  unfold __init__, install_defaults. simpl.
  destruct (capability settings) as [c|] eqn:Hc; simpl; [|exact Hc].
  destruct (truthy c); [|exact Hc].
  destruct (contains FAN_MODE c && _), (contains MODE c && _),
    (contains SWING_MODE c && _); exact Hc.
Qed.

Lemma init_published (self0 : Climate) (settings : ClimateSetting)
    (callbacks : gmap string Callback) (user_data : option UserData) :
  published (mqtt_client (__init__ self0 settings callbacks user_data))
  = published (mqtt_client self0).
Proof.
  unfold __init__, install_defaults. simpl.
  destruct (capability settings) as [c|]; simpl; [|reflexivity].
  destruct (truthy c); [|reflexivity].
  destruct (contains FAN_MODE c && _), (contains MODE c && _),
    (contains SWING_MODE c && _); reflexivity.
Qed.


(** *** One pair of dictionaries for all instances *)

(** C8. The topic dictionaries belong to the class. What [generate_config]
    on an instance [a] writes is what every other instance reads: a second
    instance [b], constructed afterwards, finds the state topics and the
    command topics generated for [a] in the dictionaries, and a setter of
    [b] for a capability both have publishes on the state topic of [a]. *)
Theorem class_topics_shared (a b0 : Climate) (cl : ClimateClass)
    (cfg : config) (st' : State) (settings : ClimateSetting)
    (callbacks : gmap string Callback) (user_data : option UserData)
    (ca cb : Capability.t) (op : setter) :
  generate_config {| self := a; cls := cl |} = (Ok cfg, st') ->
  capability (_settings a) = Some ca ->
  contains (setter_flag op) ca = true ->
  capability settings = Some cb ->
  contains (setter_flag op) cb = true ->
  let b := __init__ b0 settings callbacks user_data in
  accepted op (_entity b) ->
  _state_topics (cls st') !! setter_key op
  = Some (state_topic_of a (setter_key op))
  /\ (forall f key, contains f ca = true -> command_key f = Some key ->
        PyDict.get key (_command_topics (cls st'))
        = Some (command_topic_of a key))
  /\ exists r st2,
       call op {| self := b; cls := cls st' |} = (r, st2)
       /\ published (mqtt_client (self st2))
          = published (mqtt_client b0)
            ++ [(state_topic_of a (setter_key op), setter_payload op)].
Proof.
  intros Hrun Hca Hfa Hcb Hfb b Hacc.
  destruct (generated_state_topic _ _ _ ca op Hrun Hca Hfa) as (_ & _ & Hst).
  split; [exact Hst|]. split.
  - intros f key Hf Hk.
    pose proof (generate_config_Ok_inv _ _ _ Hrun) as Hp.
    rewrite (generate_config_Ok _ Hp) in Hrun. simpl in Hrun.
    rewrite Hca in Hrun. simpl rows_of in Hrun. injection Hrun as <- <-.
    simpl. apply (apply_rows_command _ ca _ f key Hf Hk).
  - eexists _, _. split.
    + apply (call_sends op _ cb (state_topic_of a (setter_key op))).
      * exact Hacc.
      * change (capability (_settings b) = Some cb).
        unfold b. rewrite init_capability. exact Hcb.
      * exact Hfb.
      * exact Hst.
    + rewrite <- (init_published b0 settings callbacks user_data).
      reflexivity.
Qed.

End Setters.

(** ** The connection callback *)

Section Connection.

Context {Number Callback UserData : Type}.
Context {NumberStr : @Str Number} {Base : @Discoverable Number}.
Context {Net : @Broker Callback UserData}.

Local Abbreviation State := (@State Number Callback UserData).
Local Abbreviation Climate := (@Climate Number Callback UserData).
Local Abbreviation Client := (@Client Callback UserData).
Local Abbreviation config := (gmap string (@pyobj Number)).

Lemma append_assoc (a b c : string) : (a +:+ b) +:+ c = a +:+ (b +:+ c).
Proof.
  induction a as [|x a IH]; [reflexivity|].
  rewrite !append_cons, IH. reflexivity.
Qed.

Lemma command_topic_split (o : Climate) (key : string) :
  command_topic_of o key = command_base o +:+ String "/" (command_name key).
Proof.
  unfold command_topic_of, command_base, command_name.
  rewrite !append_assoc. reflexivity.
Qed.

Lemma command_wildcard_split (o : Climate) :
  command_wildcard o = command_base o +:+ "/#".
Proof.
  unfold command_wildcard, command_base. rewrite !append_assoc. reflexivity.
Qed.

(** The subscription covers every command topic of the instance. *)
Lemma wildcard_covers (o : Climate) (key : string) :
  Topic.matches (command_wildcard o) (command_topic_of o key) = true.
Proof.
  rewrite command_wildcard_split, command_topic_split. apply wildcard_matches.
Qed.

(** *** The loop over the command topics *)

Lemma add_callbacks_run (items : list (string * string)) (st : State) :
  add_callbacks items st =
  (Ok tt,
   on_self (with_mqtt_client
              (fold_left (register (command_callbacks (self st))) items
                 (mqtt_client (self st)))) st).
Proof.
  revert st. induction items as [|[key value] items IH];
    intros [[s et a c cbs] cl]; [reflexivity|].
  simpl add_callbacks. unfold bind, gets. simpl.
  unfold register at 2. simpl.
  destruct (cbs !! key) as [cb|].
  - unfold message_callback_add, modify. simpl. rewrite IH. reflexivity.
  - unfold ret. rewrite IH. reflexivity.
Qed.

Lemma register_keeps (callbacks : gmap string Callback)
    (items : list (string * string)) (c : Client) (t : string) :
  (forall k, (k, t) ∈ items -> callbacks !! k = None) ->
  on_message_filtered (fold_left (register callbacks) items c) !! t
  = on_message_filtered c !! t.
Proof.
  revert c. induction items as [|[k v] items IH]; intros c Hno; [reflexivity|].
  simpl. rewrite IH.
  - unfold register. simpl.
    destruct (callbacks !! k) as [cb|] eqn:Hk; [|reflexivity].
    simpl. apply lookup_insert_ne. intros ->.
    rewrite (Hno k) in Hk by left. discriminate.
  - intros k' H'. apply Hno. right. exact H'.
Qed.

Lemma register_stays (callbacks : gmap string Callback)
    (items : list (string * string)) (c : Client) (t : string) (cb : Callback) :
  (forall k, (k, t) ∈ items -> callbacks !! k = Some cb) ->
  on_message_filtered c !! t = Some cb ->
  on_message_filtered (fold_left (register callbacks) items c) !! t = Some cb.
Proof.
  revert c. induction items as [|[k v] items IH]; intros c Hall Hc; [exact Hc|].
  simpl. apply IH.
  - intros k' H'. apply Hall. right. exact H'.
  - unfold register. simpl.
    destruct (callbacks !! k) as [cb'|] eqn:Hk; [|exact Hc].
    simpl. destruct (decide (v = t)) as [->|Hne].
    + rewrite (Hall k) in Hk by left. injection Hk as ->.
      apply lookup_insert_eq.
    + rewrite lookup_insert_ne by exact Hne. exact Hc.
Qed.

Lemma register_adds (callbacks : gmap string Callback)
    (items : list (string * string)) (c : Client) (k0 t : string)
    (cb : Callback) :
  (k0, t) ∈ items ->
  (forall k, (k, t) ∈ items -> callbacks !! k = Some cb) ->
  on_message_filtered (fold_left (register callbacks) items c) !! t = Some cb.
Proof.
  revert c. induction items as [|[k v] items IH]; intros c Hin Hall.
  - inversion Hin.
  - simpl. apply elem_of_cons in Hin as [[= <- <-]|Hin].
    + apply register_stays.
      * intros k' H'. apply Hall. right. exact H'.
      * unfold register. simpl. rewrite (Hall k0) by left.
        simpl. apply lookup_insert_eq.
    + apply IH; [exact Hin|].
      intros k' H'. apply Hall. right. exact H'.
Qed.


(** *** The command dictionary in the reachable states *)

Lemma table_command_levels :
  Forall (fun e : kind * string => PyStr.no_slash (command_name e.2) = true)
    (flat_map row members).
Proof. apply (bool_decide_unpack _). vm_compute. reflexivity. Qed.

Lemma table_command_names_inj :
  Forall (fun e : kind * string =>
    Forall (fun e' : kind * string =>
      e.1 = CommandTopic -> e'.1 = CommandTopic ->
      command_name e.2 = command_name e'.2 -> e.2 = e'.2)
      (flat_map row members))
    (flat_map row members).
Proof. apply (bool_decide_unpack _). vm_compute. reflexivity. Qed.

Lemma command_topic_last_level (o : Climate) (key : string) :
  (CommandTopic, key) ∈ flat_map row members ->
  last (PyStr.split_slash (command_topic_of o key)) = Some (command_name key).
Proof.
  intros Hin. rewrite command_topic_split. apply last_level_append.
  exact (proj1 (Forall_forall _ _) table_command_levels _ Hin).
Qed.

Lemma reachable_command_topics_wf (cl : ClimateClass) :
  @reachable Number Callback UserData Base cl ->
  command_topics_wf (_command_topics cl).
Proof.
  induction 1 as [|st st' r Hreach IH Hrun].
  - intros k v Hin. inversion Hin.
  - rewrite generate_config_run in Hrun.
    destruct (parent_config (self st) !! "state_topic").
    + injection Hrun as _ <-. simpl. intros k v Hin.
      apply command_topics_elem_of in Hin as [Hin|[Hin ->]].
      * apply IH. exact Hin.
      * assert ((CommandTopic, k) ∈ flat_map row members) as Ht.
        { destruct (capability (_settings (self st))) as [c|]; simpl in Hin.
          - apply (rows_subset_table c _ Hin).
          - inversion Hin. }
        split; [exact Ht|]. apply command_topic_last_level. exact Ht.
    + injection Hrun as _ <-. exact IH.
Qed.

(** In a well-formed command dictionary a topic belongs to one key. *)
Lemma command_topics_wf_key (d : list (string * string)) (k k' v : string) :
  command_topics_wf d -> (k, v) ∈ d -> (k', v) ∈ d -> k = k'.
Proof.
  intros Hwf Hk Hk'.
  destruct (Hwf k v Hk) as [Ht Hl]. destruct (Hwf k' v Hk') as [Ht' Hl'].
  pose proof (proj1 (Forall_forall _ _) table_command_names_inj _ Ht) as H.
  pose proof (proj1 (Forall_forall _ _) H _ Ht') as H'. simpl in H'.
  apply H'; [reflexivity..|]. congruence.
Qed.

(** *** The run of [on_client_connected] *)

Lemma on_client_connected_run (st : State) :
  on_client_connected st =
  if (subscribe_rc (mqtt_client (self st)) (command_wildcard (self st)) 1
      =? MQTT_ERR_SUCCESS)%Z
  then match generate_config (subscribed st) with
       | (Ok cfg, st2) => (Ok tt, routed (written cfg st2))
       | (Raise e, st2) => (Raise e, st2)
       end
  else (Raise (RuntimeError (Literal "Error subscribing to MQTT command topic")),
        subscribed st).
Proof.
  unfold on_client_connected, bind at 1, gets at 1.
  unfold bind at 1. unfold subscribe at 1. fold (subscribed st).
  destruct (_ =? _)%Z; simpl; [|reflexivity].
  unfold bind at 1. unfold write_config, bind at 1.
  destruct (generate_config (subscribed st)) as [[cfg|e] st2]; [|reflexivity].
  unfold bind, gets, publish, ret. simpl. fold (written cfg st2).
  rewrite add_callbacks_run. reflexivity.
Qed.


Lemma register_subscriptions (callbacks : gmap string Callback)
    (items : list (string * string)) (c : Client) :
  subscriptions (fold_left (register callbacks) items c) = subscriptions c.
Proof.
  revert c. induction items as [|[k v] items IH]; intros c; [reflexivity|].
  simpl. rewrite IH. unfold register. simpl.
  destruct (callbacks !! k); reflexivity.
Qed.

(** C4. In every reachable state of the class, [on_client_connected]
    subscribes to "{state_prefix}/{entity_topic}/command/#" with quality of
    service 1, and this subscription covers every command topic of the
    instance. The callback returns exactly when the subscription succeeds
    and the configuration can be generated; then, for every command key
    generated for a capability of the instance, the command dictionary
    holds the generated topic, and the client has the callback of
    [command_callbacks] for that key on exactly that topic when the key is
    in [command_callbacks], and no callback is added on that topic when it
    is not. *)
Theorem on_client_connected_routes (st : State) :
  @reachable Number Callback UserData Base (cls st) ->
  let o := self st in
  let sub := state_prefix (mqtt (_settings o)) +:+ "/" +:+ _entity_topic o
               +:+ "/command/#" in
  let r := (on_client_connected st).1 in
  let st' := (on_client_connected st).2 in
  subscriptions (mqtt_client (self st'))
  = subscriptions (mqtt_client o) ++ [(sub, 1)]
  /\ (forall key, Topic.matches sub (command_topic_of o key) = true)
  /\ (r = Ok tt <->
      subscribe_rc (mqtt_client o) sub 1 = MQTT_ERR_SUCCESS
      /\ is_Some (parent_config o !! "state_topic"))
  /\ (r = Ok tt ->
      forall c f key,
        capability (_settings o) = Some c ->
        contains f c = true ->
        command_key f = Some key ->
        PyDict.get key (_command_topics (cls st'))
        = Some (command_topic_of o key)
        /\ on_message_filtered (mqtt_client (self st')) !! command_topic_of o key
           = match command_callbacks o !! key with
             | Some cb => Some cb
             | None => on_message_filtered (mqtt_client o) !! command_topic_of o key
             end).
Proof.
  intros Hreach o sub r st'. subst r st'.
  change sub with (command_wildcard o). clear sub.
  rewrite on_client_connected_run. fold o.
  destruct (subscribe_rc (mqtt_client o) (command_wildcard o) 1
            =? MQTT_ERR_SUCCESS)%Z eqn:Hrc.
  - apply Z.eqb_eq in Hrc.
    pose proof (generate_config_run (subscribed st)) as Hrun.
    assert (@reachable Number Callback UserData Base
              (cls (generate_config (subscribed st)).2)) as Hreach2.
    { apply (reachable_generate (subscribed st) _
               (generate_config (subscribed st)).1).
      - exact Hreach.
      - destruct (generate_config (subscribed st)); reflexivity. }
    change (parent_config (self (subscribed st))) with (parent_config o) in Hrun.
    destruct (parent_config o !! "state_topic") as [x|] eqn:Hx.
    + rewrite Hrun in Hreach2. rewrite Hrun. simpl in Hreach2. simpl.
      split; [rewrite register_subscriptions; reflexivity|].
      split; [apply wildcard_covers|].
      split; [split; [intros _; split; [exact Hrc|eauto]|reflexivity]|].
      intros _ c f key Hc Hf Hk. fold o in Hreach2. fold o.
      rewrite Hc in *. simpl rows_of in *.
      destruct (apply_rows_command (self (subscribed st)) c
                  (delete "state_topic" (parent_config o), cls st) f key Hf Hk)
        as [_ Hget].
      change (command_topic_of (self (subscribed st)) key)
        with (command_topic_of o key) in Hget.
      split; [exact Hget|].
      pose proof (reachable_command_topics_wf _ Hreach2) as Hwf.
      apply dict_get_elem_of in Hget.
      destruct (command_callbacks o !! key) as [cb|] eqn:Hcb.
      * apply (register_adds _ _ _ key); [exact Hget|].
        intros k' Hk'.
        rewrite <- (command_topics_wf_key _ _ _ _ Hwf Hget Hk'). exact Hcb.
      * rewrite register_keeps; [reflexivity|].
        intros k' Hk'.
        rewrite <- (command_topics_wf_key _ _ _ _ Hwf Hget Hk'). exact Hcb.
    + rewrite Hrun. simpl.
      split; [reflexivity|]. split; [apply wildcard_covers|].
      split; [|discriminate].
      split; [discriminate|]. intros [_ [y Hy]]. discriminate.
  - simpl. split; [reflexivity|]. split; [apply wildcard_covers|].
    split; [|discriminate].
    split; [discriminate|]. intros [H _].
    apply Z.eqb_neq in Hrc. contradiction.
Qed.

End Connection.

(** ** The module on the example installation *)

Section Runs.

Import Example.

(** The thermostat of the hall gets its fan topics. *)
Lemma generate_config_topic_entries_witness :
  exists cfg st',
    generate_config (start hall) = (Ok cfg, st')
    /\ cfg !! "fan_mode_state_topic"
       = Some (PyStr "hmd/climate/hall/state/fan_mode")
    /\ cfg !! "fan_mode_command_topic"
       = Some (PyStr "hmd/climate/hall/command/fan_mode")
    /\ cfg !! "action_topic" = Some (PyStr "hmd/climate/hall/state/action")
    /\ cfg !! "power_command_topic" = None.
Proof.
  destruct (generate_config_topic_entries (start hall) fan_and_action)
    as (cfg & st' & Hrun & Hstate & Hcommand & Hfan & Hother).
  - reflexivity.
  - reflexivity.
  - vm_compute. eexists. reflexivity.
  - exists cfg, st'. split; [exact Hrun|].
    split; [apply Hfan; reflexivity|].
    split; [apply Hfan; reflexivity|].
    split; [apply (Hstate ACTION); reflexivity|].
    rewrite Hother; [vm_compute; reflexivity|].
    intros f Hf. destruct f; try discriminate Hf; split; discriminate.
Defined.

Lemma generate_config_table_witness :
  _state_topics (cls (generated hall)) !! "fan_mode_state_topic"
  = Some "hmd/climate/hall/state/fan_mode"
  /\ PyDict.get "fan_mode_command_topic" (_command_topics (cls (generated hall)))
     = Some "hmd/climate/hall/command/fan_mode".
Proof.
  destruct (generate_config_table (start hall) (generated hall)
              (config_of hall) fan_and_action FAN_MODE)
    as (_ & Hstate & Hcommand & _).
  - vm_compute. reflexivity.
  - reflexivity.
  - reflexivity.
  - split.
    + apply (Hstate "fan_mode_state_topic"). reflexivity.
    + apply (Hcommand "fan_mode_command_topic"). reflexivity.
Defined.

(** C2, as stated, fails on the thermostat of the attic: ACTION is in its
    capability set and [generate_config] produces the state topic of the
    action and no command topic at all. *)
Lemma generate_config_action_without_command :
  contains ACTION (value ACTION) = true
  /\ generate_config (start attic) = (Ok (config_of attic), generated attic)
  /\ map_to_list (config_of attic)
     = [("action_topic", PyStr "hmd/climate/attic/state/action");
        ("name", PyStr "attic");
        ("json_attributes_topic", PyStr "hmd/climate/attic/attributes")]
  /\ _command_topics (cls (generated attic)) = [].
Proof. repeat split; vm_compute; reflexivity. Qed.



Lemma mode_setter_validation_witness :
  (call (SetFanMode "turbo") (generated hall)).1
  = Raise (RuntimeError
             (NotValidValue "fan mode" "turbo" ["auto"; "low"; "medium"; "high"]))
  /\ (call (SetFanMode "turbo") (generated hall)).2 = generated hall.
Proof.
  destruct (mode_setter_validation (generated hall) (SetFanMode "turbo")
              "fan mode" "turbo" ["auto"; "low"; "medium"; "high"])
    as [Hiff Hsame].
  - reflexivity.
  - assert ("turbo" ∉ ["auto"; "low"; "medium"; "high"]) as Hout.
    { apply (bool_decide_unpack _). vm_compute. exact I. }
    split; [apply Hiff, Hout|apply Hsame, Hout].
Defined.

(** C5, as stated, fails when the broker refuses the message: "auto" is a
    fan mode of the hall, and [set_fan_mode] raises [RuntimeError] all the
    same. *)
Lemma set_fan_mode_valid_raises :
  fan_modes (_entity (self (generated hall)))
  = Some ["auto"; "low"; "medium"; "high"]
  /\ "auto" ∈ ["auto"; "low"; "medium"; "high"]
  /\ (call (Net := offline) (SetFanMode "auto") (generated hall)).1
     = Raise (RuntimeError
                (ErrorSendingState "auto" "hmd/climate/hall/state/fan_mode" 4)).
Proof.
  split; [reflexivity|]. split; [left|]. vm_compute. reflexivity.
Qed.

(** C6 on the thermostat of the cellar, which has a fan and no action:
    [set_action] raises [KeyError], not the [RuntimeError] of the guard. *)
Lemma setter_unconfigured_KeyError_witness :
  contains ACTION (value FAN_MODE) = false
  /\ call (SetAction OFF) (generated cellar)
     = (Raise (KeyError "action_topic"), generated cellar).
Proof.
  split; [reflexivity|].
  apply (setter_unconfigured_KeyError (start cellar) (generated cellar)
           (config_of cellar) (value FAN_MODE) (SetAction OFF)).
  - vm_compute. reflexivity.
  - reflexivity.
  - reflexivity.
  - reflexivity.
  - exact I.
Defined.

(** The attic, constructed after the hall has generated its configuration,
    publishes its action on the topic of the hall. *)
Lemma class_topics_shared_witness :
  exists r st2,
    call (SetAction HEATING) {| self := attic; cls := cls (generated hall) |}
    = (r, st2)
    /\ published (mqtt_client (self st2))
       = [("hmd/climate/hall/state/action", "heating")].
Proof.
  destruct (class_topics_shared hall (parent_init "attic") empty_class
              (config_of hall) (generated hall)
              (settings "attic" (Some (value ACTION))) ∅ None
              fan_and_action (value ACTION) (SetAction HEATING))
    as (_ & _ & r & st2 & Hcall & Hpub).
  - vm_compute. reflexivity.
  - reflexivity.
  - reflexivity.
  - reflexivity.
  - reflexivity.
  - exact I.
  - exists r, st2. split; [exact Hcall|exact Hpub].
Defined.

Lemma on_client_connected_routes_witness :
  subscriptions (mqtt_client (self (on_client_connected (start hall)).2))
  = [("hmd/climate/hall/command/#", 1)]
  /\ on_message_filtered (mqtt_client (self (on_client_connected (start hall)).2))
     !! "hmd/climate/hall/command/fan_mode" = Some "on_fan_mode".
Proof.
  destruct (on_client_connected_routes (start hall))
    as (Hsub & _ & Hok & Hroute).
  - apply reachable_init.
  - split; [exact Hsub|].
    assert ((on_client_connected (start hall)).1 = Ok tt) as Hr.
    { apply Hok. split; [reflexivity|]. vm_compute. eexists. reflexivity. }
    destruct (Hroute Hr fan_and_action FAN_MODE "fan_mode_command_topic")
      as [_ Hcb]; [reflexivity..|].
    exact Hcb.
Defined.

End Runs.

(** ** What the methods leave alone, and how they fail *)

Section Frames.

Context {Number Callback UserData : Type}.
Context {NumberStr : @Str Number} {Base : @Discoverable Number}.
Context {Net : @Broker Callback UserData}.

Local Abbreviation State := (@State Number Callback UserData).
Local Abbreviation Climate := (@Climate Number Callback UserData).
Local Abbreviation Client := (@Client Callback UserData).
Local Abbreviation ClimateInfo := (@ClimateInfo Number).
Local Abbreviation ClimateSetting := (@ClimateSetting Number).
Local Abbreviation setter := (@setter Number).
Local Abbreviation config := (gmap string (@pyobj Number)).

(** X1. A setter changes nothing but the log of published messages: the
    class dictionaries, the settings, the callbacks, the subscriptions and
    the registered callbacks are as before. It publishes at most one
    message, and when it returns it has published exactly one, with its
    payload, on the topic the class dictionary holds under its key. *)
Theorem setter_frame (op : setter) (st : State) :
  let st' := (call op st).2 in
  cls st' = cls st
  /\ _settings (self st') = _settings (self st)
  /\ _entity_topic (self st') = _entity_topic (self st)
  /\ state_topic (self st') = state_topic (self st)
  /\ command_callbacks (self st') = command_callbacks (self st)
  /\ subscriptions (mqtt_client (self st')) = subscriptions (mqtt_client (self st))
  /\ on_message_filtered (mqtt_client (self st'))
     = on_message_filtered (mqtt_client (self st))
  /\ (published (mqtt_client (self st')) = published (mqtt_client (self st))
      \/ exists topic,
           _state_topics (cls st) !! setter_key op = Some topic
           /\ published (mqtt_client (self st'))
              = published (mqtt_client (self st))
                ++ [(topic, setter_payload op)])
  /\ ((call op st).1 = Ok tt ->
      exists topic,
        _state_topics (cls st) !! setter_key op = Some topic
        /\ published (mqtt_client (self st'))
           = published (mqtt_client (self st)) ++ [(topic, setter_payload op)]).
Proof.
  assert (forall f key state,
    let r := looks_up_and_sends f key state st in
    cls r.2 = cls st
    /\ _settings (self r.2) = _settings (self st)
    /\ _entity_topic (self r.2) = _entity_topic (self st)
    /\ state_topic (self r.2) = state_topic (self st)
    /\ command_callbacks (self r.2) = command_callbacks (self st)
    /\ subscriptions (mqtt_client (self r.2))
       = subscriptions (mqtt_client (self st))
    /\ on_message_filtered (mqtt_client (self r.2))
       = on_message_filtered (mqtt_client (self st))
    /\ (published (mqtt_client (self r.2)) = published (mqtt_client (self st))
        \/ exists topic,
             _state_topics (cls st) !! key = Some topic
             /\ published (mqtt_client (self r.2))
                = published (mqtt_client (self st)) ++ [(topic, state)])
    /\ (r.1 = Ok tt ->
        exists topic,
          _state_topics (cls st) !! key = Some topic
          /\ published (mqtt_client (self r.2))
             = published (mqtt_client (self st)) ++ [(topic, state)])) as Hbody.
  { intros f key state. unfold looks_up_and_sends.
    destruct (_state_topics (cls st) !! key) as [topic|];
      [|simpl; repeat split; auto; discriminate].
    destruct (capability (_settings (self st))) as [c|];
      [|simpl; repeat split; auto; discriminate].
    destruct (contains f c); [|simpl; repeat split; auto; discriminate].
    unfold sends. simpl. repeat split; eauto. }
  simpl. rewrite call_run.
  destruct (setter_mode op (_entity (self st))) as [[[what m] [l|]]|].
  - destruct (bool_decide (m ∈ l)); [apply Hbody|].
    simpl. repeat split; auto; discriminate.
  - simpl. repeat split; auto; discriminate.
  - apply Hbody.
Qed.

(** X2. A setter called while the class dictionary has no topic under its
    key (no instance has generated one yet) raises [KeyError] for that key
    and leaves the state as it is, whether or not the capability is
    configured. *)
Theorem setter_before_generate_config (op : setter) (st : State) :
  accepted op (_entity (self st)) ->
  _state_topics (cls st) !! setter_key op = None ->
  call op st = (Raise (KeyError (setter_key op)), st).
Proof.
  intros Ha Hnone. rewrite (call_accepted op st Ha).
  unfold looks_up_and_sends. rewrite Hnone. reflexivity.
Qed.

(** X3. The constructor gives [preset_modes] no default: on an instance
    constructed from settings without preset modes, [set_preset_mode]
    raises [TypeError] for every mode, in every state of the class, even
    with PRESET_MODE in the capability set; nothing is published. *)
Theorem set_preset_mode_without_list (self0 : Climate)
    (settings : ClimateSetting) (callbacks : gmap string Callback)
    (user_data : option UserData) (cl : ClimateClass) (m : string) :
  preset_modes (entity settings) = None ->
  call (SetPresetMode m)
    {| self := __init__ self0 settings callbacks user_data; cls := cl |}
  = (Raise (TypeError NoneType_not_iterable),
     {| self := __init__ self0 settings callbacks user_data; cls := cl |}).
Proof.
  intros Hnone. rewrite call_run. simpl setter_mode.
  assert (preset_modes (_entity (__init__ self0 settings callbacks user_data))
          = None) as ->; [|reflexivity].
  rewrite <- Hnone.
  destruct settings as [mq e mav cap].
  destruct e as [nm co fm ini mxh mxt mnh mnt mo opt pa pna poff pon pr pm sm
                 tu ts].
  unfold __init__, install_defaults, _entity. simpl.
  destruct cap as [c|]; simpl; [|reflexivity].
  destruct (truthy c); [|reflexivity].
  destruct (contains FAN_MODE c), (contains MODE c), (contains SWING_MODE c),
    fm as [[|? ?]|], mo as [[|? ?]|], sm as [[|? ?]|]; reflexivity.
Qed.


Lemma init_mode_lists (self0 : Climate) (settings : ClimateSetting)
    (callbacks : gmap string Callback) (user_data : option UserData) :
  let e := entity settings in
  let e' := _entity (__init__ self0 settings callbacks user_data) in
  fan_modes e' =
    (if configured FAN_MODE settings && not_ (fan_modes e)
     then Some ["auto"; "low"; "medium"; "high"] else fan_modes e)
  /\ modes e' =
    (if configured MODE settings && not_ (modes e)
     then Some ["auto"; "off"; "cool"; "heat"; "dry"; "fan_only"] else modes e)
  /\ swing_modes e' =
    (if configured SWING_MODE settings && not_ (swing_modes e)
     then Some ["on"; "off"] else swing_modes e).
Proof.
  destruct settings as [mq e mav cap].
  destruct e as [nm co fm ini mxh mxt mnh mnt mo opt pa pna poff pon pr pm sm
                 tu ts].
  unfold __init__, install_defaults, configured, _entity. simpl.
  destruct cap as [c|]; simpl; [|repeat split].
  destruct (truthy c) eqn:Ht.
  - destruct (contains FAN_MODE c), (contains MODE c), (contains SWING_MODE c),
      fm as [[|? ?]|], mo as [[|? ?]|], sm as [[|? ?]|];
      simpl; repeat split.
  - rewrite !(contains_falsy _ c Ht). simpl. repeat split.
Qed.

Lemma default_or_set (d : list string) (l : option (list string)) :
  d <> [] ->
  exists x l', (if true && not_ l then Some d else l) = Some (x :: l').
Proof.
  intros Hd. destruct l as [[|y l]|]; simpl.
  - destruct d; [contradiction|eauto].
  - eauto.
  - destruct d; [contradiction|eauto].
Qed.

(** X4. After the constructor, the list of a configured FAN_MODE, MODE or
    SWING_MODE is never missing or empty, and once the instance has
    generated its configuration the setter accepts every mode of that list
    and hands it to the client on the state topic of the instance. *)
Theorem constructed_modes_are_published (self0 : Climate)
    (settings : ClimateSetting) (callbacks : gmap string Callback)
    (user_data : option UserData) (cl : ClimateClass) (cfg : config)
    (st1 : State) (c : Capability.t) (op : setter) :
  let o := __init__ self0 settings callbacks user_data in
  capability settings = Some c ->
  contains (setter_flag op) c = true ->
  setter_flag op ∈ [FAN_MODE; MODE; SWING_MODE] ->
  generate_config {| self := o; cls := cl |} = (Ok cfg, st1) ->
  exists what m x l,
    setter_mode op (_entity o) = Some (what, m, Some (x :: l))
    /\ (m ∈ x :: l ->
        call op st1 = sends m (state_topic_of o (setter_key op)) st1).
Proof.
  intros o Hc Hf Hin Hrun.
  destruct (init_mode_lists self0 settings callbacks user_data)
    as (Hfan & Hmode & Hswing).
  assert (capability (_settings o) = Some c) as Hco.
  { unfold o. rewrite init_capability. exact Hc. }
  destruct (generated_state_topic _ _ _ c op Hrun Hco Hf) as (Hself & _ & Hst).
  simpl in Hself.
  assert (forall what m x l,
            setter_mode op (_entity o) = Some (what, m, Some (x :: l)) ->
            setter_payload op = m ->
            m ∈ x :: l ->
            call op st1 = sends m (state_topic_of o (setter_key op)) st1)
    as Hcall.
  { intros what m x l Hm Hp Hel. rewrite <- Hp.
    apply (call_sends op st1 c).
    - unfold accepted. rewrite Hself. simpl _entity.
      change (_entity (with_state_topic None o)) with (_entity o).
      rewrite Hm. eauto.
    - rewrite Hself. exact Hco.
    - exact Hf.
    - exact Hst. }
  unfold configured in Hfan, Hmode, Hswing. rewrite Hc in Hfan, Hmode, Hswing.
  destruct op; simpl in Hf, Hin;
    try (exfalso; repeat (apply elem_of_cons in Hin as [Hin|Hin];
                          [discriminate Hin|]); inversion Hin; fail).
  - rewrite Hf in Hfan.
    destruct (default_or_set ["auto"; "low"; "medium"; "high"]
                (fan_modes (entity settings)) ltac:(discriminate))
      as (x & l & Hl).
    rewrite Hl in Hfan. exists "fan mode", fan_mode, x, l.
    split; [simpl; fold o in Hfan; rewrite Hfan; reflexivity|].
    apply (Hcall "fan mode"); [simpl; fold o in Hfan; rewrite Hfan|];
      reflexivity.
  - rewrite Hf in Hmode.
    destruct (default_or_set
                ["auto"; "off"; "cool"; "heat"; "dry"; "fan_only"]
                (modes (entity settings)) ltac:(discriminate))
      as (x & l & Hl).
    rewrite Hl in Hmode. exists "mode", mode, x, l.
    split; [simpl; fold o in Hmode; rewrite Hmode; reflexivity|].
    apply (Hcall "mode"); [simpl; fold o in Hmode; rewrite Hmode|];
      reflexivity.
  - rewrite Hf in Hswing.
    destruct (default_or_set ["on"; "off"]
                (swing_modes (entity settings)) ltac:(discriminate))
      as (x & l & Hl).
    rewrite Hl in Hswing. exists "preset mode", swing_mode, x, l.
    split; [simpl; fold o in Hswing; rewrite Hswing; reflexivity|].
    apply (Hcall "preset mode"); [simpl; fold o in Hswing; rewrite Hswing|];
      reflexivity.
Qed.


Lemma rows_of_not_configured (sett : ClimateSetting) :
  (forall f, configured f sett = false) -> rows_of (capability sett) = [].
Proof.
  unfold configured. intros Hno.
  destruct (capability sett) as [c|]; [|reflexivity].
  simpl. unfold rows, members. simpl.
  rewrite !Hno. reflexivity.
Qed.

Lemma generate_config_touches (st : State) :
  let st' := (generate_config st).2 in
  mqtt_client (self st') = mqtt_client (self st)
  /\ _settings (self st') = _settings (self st)
  /\ _entity_topic (self st') = _entity_topic (self st)
  /\ command_callbacks (self st') = command_callbacks (self st)
  /\ (forall k, is_Some (_state_topics (cls st) !! k) ->
                 is_Some (_state_topics (cls st') !! k))
  /\ (forall k, is_Some (PyDict.get k (_command_topics (cls st))) ->
                 is_Some (PyDict.get k (_command_topics (cls st'))))
  /\ (forall k,
        (forall f, configured f (_settings (self st)) = true ->
                   state_key f <> Some k) ->
        _state_topics (cls st') !! k = _state_topics (cls st) !! k)
  /\ (forall k,
        (forall f, configured f (_settings (self st)) = true ->
                   command_key f <> Some k) ->
        PyDict.get k (_command_topics (cls st'))
        = PyDict.get k (_command_topics (cls st))).
Proof.
  simpl. rewrite generate_config_run.
  destruct (parent_config (self st) !! "state_topic") as [x|];
    [|simpl; repeat split; auto].
  simpl. split; [reflexivity|]. split; [reflexivity|].
  split; [reflexivity|]. split; [reflexivity|].
  set (es := rows_of (capability (_settings (self st)))).
  set (p := (delete "state_topic" (parent_config (self st)), cls st)).
  split; [|split; [|split]].
  - intros k Hk. destruct (decide ((StateTopic, k) ∈ es)) as [Hin|Hout].
    + rewrite (state_topics_lookup_present (self st) es p k Hin). eauto.
    + rewrite (state_topics_lookup_absent (self st) es p k Hout). exact Hk.
  - intros k Hk. destruct (decide ((CommandTopic, k) ∈ es)) as [Hin|Hout].
    + rewrite (command_topics_get_present (self st) es p k Hin). eauto.
    + rewrite (command_topics_get_absent (self st) es p k Hout). exact Hk.
  - intros k Hno. apply (state_topics_lookup_absent (self st) es p k).
    subst es. unfold configured in Hno.
    destruct (capability (_settings (self st))) as [c|]; simpl.
    + intros (f & Hf & Hin)%elem_of_rows. apply elem_of_row_state in Hin.
      exact (Hno f Hf Hin).
    + apply not_elem_of_nil.
  - intros k Hno. apply (command_topics_get_absent (self st) es p k).
    subst es. unfold configured in Hno.
    destruct (capability (_settings (self st))) as [c|]; simpl.
    + intros (f & Hf & Hin)%elem_of_rows. apply elem_of_row_command in Hin.
      exact (Hno f Hf Hin).
    + apply not_elem_of_nil.
Qed.

(** X5. [generate_config] hands nothing to the MQTT client and leaves the
    settings, the topic of the entity and the callbacks alone. In the class
    dictionaries it never removes a key, and it changes no entry under a
    key that belongs to no capability of the instance: topics that other
    instances stored there stay. *)
Theorem generate_config_frame (st : State) :
  let st' := (generate_config st).2 in
  mqtt_client (self st') = mqtt_client (self st)
  /\ _settings (self st') = _settings (self st)
  /\ _entity_topic (self st') = _entity_topic (self st)
  /\ command_callbacks (self st') = command_callbacks (self st)
  /\ (forall k, is_Some (_state_topics (cls st) !! k) ->
                 is_Some (_state_topics (cls st') !! k))
  /\ (forall k, is_Some (PyDict.get k (_command_topics (cls st))) ->
                 is_Some (PyDict.get k (_command_topics (cls st'))))
  /\ (forall k,
        (forall f, configured f (_settings (self st)) = true ->
                   state_key f <> Some k) ->
        _state_topics (cls st') !! k = _state_topics (cls st) !! k)
  /\ (forall k,
        (forall f, configured f (_settings (self st)) = true ->
                   command_key f <> Some k) ->
        PyDict.get k (_command_topics (cls st'))
        = PyDict.get k (_command_topics (cls st))).
Proof. exact (generate_config_touches st). Qed.

(** X6. Settings without a capability, or with the empty flag: the
    constructor leaves the entity as it is, and [generate_config] returns
    the parent configuration without "state_topic" and writes nothing into
    the class dictionaries. *)
Theorem no_capability_no_topics (self0 : Climate) (settings : ClimateSetting)
    (callbacks : gmap string Callback) (user_data : option UserData)
    (cl : ClimateClass) :
  let o := __init__ self0 settings callbacks user_data in
  (capability settings = None \/ capability settings = Some 0%N) ->
  _entity o = entity settings
  /\ generate_config {| self := o; cls := cl |}
     = match parent_config o !! "state_topic" with
       | Some _ =>
           (Ok (delete "state_topic" (parent_config o)),
            {| self := with_state_topic None o; cls := cl |})
       | None =>
           (Raise (KeyError "state_topic"),
            {| self := with_state_topic None o; cls := cl |})
       end.
Proof.
  intros o Hcap.
  assert (forall f, configured f (_settings o) = false) as Hno.
  { intros f. unfold configured, o. rewrite init_capability.
    destruct Hcap as [-> | ->]; [reflexivity|destruct f; reflexivity]. }
  split.
  - destruct settings as [mq e mav cap]. simpl in Hcap.
    unfold o, __init__, install_defaults, _entity. simpl.
    destruct Hcap as [-> | ->]; reflexivity.
  - rewrite generate_config_run. simpl self. simpl cls.
    rewrite (rows_of_not_configured _ Hno).
    destruct (parent_config o !! "state_topic"); reflexivity.
Qed.

End Frames.

(** ** More on the connection callback *)

Section Routing.

Context {Number Callback UserData : Type}.
Context {NumberStr : @Str Number} {Base : @Discoverable Number}.
Context {Net : @Broker Callback UserData}.

Local Abbreviation State := (@State Number Callback UserData).
Local Abbreviation Climate := (@Climate Number Callback UserData).
Local Abbreviation Client := (@Client Callback UserData).
Local Abbreviation config := (gmap string (@pyobj Number)).

(** X7. When [on_client_connected] raises, it raises the [RuntimeError] of
    the failed subscription or the [KeyError] of [generate_config]; the
    subscription has been asked for, and nothing else has happened: no
    message is published, no callback is registered and the class
    dictionaries are as before. *)
Theorem on_client_connected_failure (st : State) :
  let r := (on_client_connected st).1 in
  let st' := (on_client_connected st).2 in
  r <> Ok tt ->
  (r = Raise (RuntimeError (Literal "Error subscribing to MQTT command topic"))
   \/ r = Raise (KeyError "state_topic"))
  /\ cls st' = cls st
  /\ published (mqtt_client (self st')) = published (mqtt_client (self st))
  /\ on_message_filtered (mqtt_client (self st'))
     = on_message_filtered (mqtt_client (self st))
  /\ subscriptions (mqtt_client (self st'))
     = subscriptions (mqtt_client (self st)) ++ [(command_wildcard (self st), 1)].
Proof.
  simpl. rewrite on_client_connected_run.
  destruct (_ =? _)%Z.
  - rewrite (generate_config_run (subscribed st)).
    destruct (parent_config (self (subscribed st)) !! "state_topic").
    + simpl. intros H. contradiction H. reflexivity.
    + simpl. intros _. repeat split. right. reflexivity.
  - simpl. intros _. repeat split. left. reflexivity.
Qed.

Lemma register_nothing (callbacks : gmap string Callback)
    (items : list (string * string)) (c : Client) :
  (forall k v, (k, v) ∈ items -> callbacks !! k = None) ->
  fold_left (register callbacks) items c = c.
Proof.
  revert c. induction items as [|[k v] items IH]; intros c Hno; [reflexivity|].
  simpl. unfold register at 2. simpl. rewrite (Hno k v) by left.
  apply IH. intros k' v' H'. apply (Hno k' v'). right. exact H'.
Qed.

(** X8. A callback given under a key that is no command key of the table
    is never registered: when every key of [command_callbacks] is such a
    key, [on_client_connected] leaves the callbacks of the client as they
    are, in every reachable state of the class. *)
Theorem unknown_callback_keys_ignored (st : State) :
  @reachable Number Callback UserData Base (cls st) ->
  (forall k, is_Some (command_callbacks (self st) !! k) ->
             (CommandTopic, k) ∉ flat_map row members) ->
  on_message_filtered (mqtt_client (self (on_client_connected st).2))
  = on_message_filtered (mqtt_client (self st)).
Proof.
  intros Hreach Hunknown. rewrite on_client_connected_run.
  destruct (_ =? _)%Z; [|reflexivity].
  assert (@reachable Number Callback UserData Base
            (cls (generate_config (subscribed st)).2)) as Hreach2.
  { apply (reachable_generate (subscribed st) _
             (generate_config (subscribed st)).1); [exact Hreach|].
    destruct (generate_config (subscribed st)); reflexivity. }
  pose proof (generate_config_touches (subscribed st)) as (Hcl & _ & _ & Hcb & _).
  destruct (generate_config (subscribed st)) as [[cfg|e] st2].
  - simpl in *. rewrite register_nothing.
    + simpl. rewrite Hcl. reflexivity.
    + intros k v Hin. rewrite Hcb. simpl.
      destruct (command_callbacks (self st) !! k) eqn:Hk; [|reflexivity].
      exfalso. apply (Hunknown k); [eauto|].
      apply (reachable_command_topics_wf _ Hreach2 k v Hin).
  - simpl in *. rewrite Hcl. reflexivity.
Qed.

(** X9. The loop of [on_client_connected] runs over the dictionary of the
    class, not over the topics of the instance: a command topic that
    another instance left there, under a key of no capability of this
    instance, gets the callback this instance was given for that key. *)
Theorem foreign_command_topic_is_routed (st : State) (k v : string)
    (cb : Callback) :
  @reachable Number Callback UserData Base (cls st) ->
  PyDict.get k (_command_topics (cls st)) = Some v ->
  (forall f, configured f (_settings (self st)) = true ->
             command_key f <> Some k) ->
  command_callbacks (self st) !! k = Some cb ->
  (on_client_connected st).1 = Ok tt ->
  PyDict.get k (_command_topics (cls (on_client_connected st).2)) = Some v
  /\ on_message_filtered (mqtt_client (self (on_client_connected st).2)) !! v
     = Some cb.
Proof.
  intros Hreach Hget Hforeign Hcb. rewrite on_client_connected_run.
  destruct (_ =? _)%Z; [|discriminate].
  assert (@reachable Number Callback UserData Base
            (cls (generate_config (subscribed st)).2)) as Hreach2.
  { apply (reachable_generate (subscribed st) _
             (generate_config (subscribed st)).1); [exact Hreach|].
    destruct (generate_config (subscribed st)); reflexivity. }
  pose proof (generate_config_touches (subscribed st))
    as (_ & _ & _ & Hcbs & _ & _ & _ & Hkeep).
  specialize (Hkeep k Hforeign).
  destruct (generate_config (subscribed st)) as [[cfg|e] st2];
    [|discriminate].
  simpl in *. intros _. rewrite Hkeep. split; [exact Hget|].
  pose proof (reachable_command_topics_wf _ Hreach2) as Hwf.
  rewrite <- Hkeep in Hget. apply dict_get_elem_of in Hget.
  apply (register_adds _ _ _ k); [exact Hget|].
  intros k' Hk'. rewrite Hcbs.
  rewrite <- (command_topics_wf_key _ _ _ _ Hwf Hget Hk'). exact Hcb.
Qed.


(** *** Connecting again *)

(** What the loop leaves under a topic is either what was there or a
    callback that the loop alone decides. *)
Lemma register_decides (callbacks : gmap string Callback)
    (items : list (string * string)) (t : string) :
  (forall c : Client,
     on_message_filtered (fold_left (register callbacks) items c) !! t
     = on_message_filtered c !! t)
  \/ (exists cb, forall c : Client,
        on_message_filtered (fold_left (register callbacks) items c) !! t
        = Some cb).
Proof.
  induction items as [|[k v] items IH]; [left; reflexivity|].
  destruct IH as [IH|[cb IH]].
  - simpl. unfold register at 2 4. simpl.
    destruct (callbacks !! k) as [cb|]; [|left; exact IH].
    destruct (decide (v = t)) as [->|Hne].
    + right. exists cb. intros c. rewrite IH. simpl. apply lookup_insert_eq.
    + left. intros c. rewrite IH. simpl. apply lookup_insert_ne. exact Hne.
  - right. exists cb. intros c. simpl. apply IH.
Qed.

Lemma register_from_registry (callbacks : gmap string Callback)
    (items : list (string * string)) (c c' : Client) :
  on_message_filtered c = on_message_filtered c' ->
  on_message_filtered (fold_left (register callbacks) items c)
  = on_message_filtered (fold_left (register callbacks) items c').
Proof.
  intros Heq. apply map_eq. intros t.
  destruct (register_decides callbacks items t) as [H|[cb H]].
  - rewrite !H, Heq. reflexivity.
  - rewrite !H. reflexivity.
Qed.

Lemma register_twice (callbacks : gmap string Callback)
    (items : list (string * string)) (c : Client) :
  on_message_filtered
    (fold_left (register callbacks) items
       (fold_left (register callbacks) items c))
  = on_message_filtered (fold_left (register callbacks) items c).
Proof.
  apply map_eq. intros t.
  destruct (register_decides callbacks items t) as [H|[cb H]].
  - rewrite !H. reflexivity.
  - rewrite !H. reflexivity.
Qed.

Lemma apply_entries_self (o o' : Climate) (es : list (kind * string))
    (p : config * ClimateClass) :
  _settings o = _settings o' -> _entity_topic o = _entity_topic o' ->
  apply_entries o es p = apply_entries o' es p.
Proof.
  intros Hs Ht. revert p.
  induction es as [|[kd k] es IH]; intros p; [reflexivity|].
  simpl. rewrite <- IH. f_equal.
  destruct kd; simpl; unfold state_topic_of, command_topic_of;
    rewrite Hs, Ht; reflexivity.
Qed.

(** The state a successful connection leaves. *)
Lemma connected_state (st : State) :
  (on_client_connected st).1 = Ok tt ->
  (on_client_connected st).2
  = routed
      (written
         (apply_entries (self st) (rows_of (capability (_settings (self st))))
            (delete "state_topic" (parent_config (self st)), cls st)).1
         {| self := with_state_topic None (self (subscribed st));
            cls := (apply_entries (self st)
                      (rows_of (capability (_settings (self st))))
                      (delete "state_topic" (parent_config (self st)),
                       cls st)).2 |}).
Proof.
  rewrite on_client_connected_run.
  destruct (_ =? _)%Z; [|discriminate].
  rewrite (generate_config_run (subscribed st)).
  change (parent_config (self (subscribed st))) with (parent_config (self st)).
  destruct (parent_config (self st) !! "state_topic"); [|discriminate].
  intros _. simpl.
  rewrite (apply_entries_self (self (subscribed st)) (self st));
    reflexivity.
Qed.

(** X10. Connecting again changes nothing in the routing: when
    [on_client_connected] returns a second time (a reconnection), the
    class dictionaries and the callbacks of the client are as the first
    connection left them; the client is asked for the same subscription
    again. *)
Theorem reconnection_keeps_routing (st : State) :
  let st1 := (on_client_connected st).2 in
  let st2 := (on_client_connected st1).2 in
  (on_client_connected st).1 = Ok tt ->
  (on_client_connected st1).1 = Ok tt ->
  cls st2 = cls st1
  /\ on_message_filtered (mqtt_client (self st2))
     = on_message_filtered (mqtt_client (self st1))
  /\ subscriptions (mqtt_client (self st2))
     = subscriptions (mqtt_client (self st1)) ++ [(command_wildcard (self st), 1)].
Proof.
  intros st1 st2 H1 H2. subst st2.
  rewrite (connected_state st1 H2).
  assert (st1 = routed
      (written
         (apply_entries (self st) (rows_of (capability (_settings (self st))))
            (delete "state_topic" (parent_config (self st)), cls st)).1
         {| self := with_state_topic None (self (subscribed st));
            cls := (apply_entries (self st)
                      (rows_of (capability (_settings (self st))))
                      (delete "state_topic" (parent_config (self st)),
                       cls st)).2 |})) as Hst1.
  { exact (connected_state st H1). }
  clearbody st1. subst st1.
  set (es := rows_of (capability (_settings (self st)))).
  set (base := delete "state_topic" (parent_config (self st))).
  simpl. fold es. fold base.
  change (parent_config _) with (parent_config (self st)). fold base.
  rewrite (apply_entries_self _ (self st)) by reflexivity.
  rewrite apply_entries_twice.
  split; [reflexivity|]. split.
  - erewrite register_from_registry; [apply register_twice|]. reflexivity.
  - rewrite register_subscriptions. reflexivity.
Qed.

End Routing.

(** ** The flags *)

Section Flags.

Lemma value_power_of_two (f : flag) : exists i : N, value f = (2 ^ i)%N.
Proof.
  destruct f;
    [exists 0%N | exists 1%N | exists 2%N | exists 3%N | exists 4%N
    | exists 5%N | exists 6%N | exists 7%N | exists 8%N | exists 9%N
    | exists 10%N | exists 11%N]; reflexivity.
Qed.

Lemma land_power_of_two (i a : N) :
  N.land (2 ^ i) a = (if N.testbit a i then 2 ^ i else 0)%N.
Proof.
  apply N.bits_inj. intros n. rewrite N.land_spec, N.pow2_bits_eqb.
  destruct (N.testbit a i) eqn:Ha.
  - rewrite N.pow2_bits_eqb.
    destruct (N.eqb_spec i n) as [->|]; [rewrite Ha|]; reflexivity.
  - rewrite N.bits_0.
    destruct (N.eqb_spec i n) as [->|]; [rewrite Ha|]; reflexivity.
Qed.

(** X11. The twelve capabilities are independent flags: a capability is in
    [a | b] exactly when it is in [a] or in [b], a single flag contains
    itself and no other flag, and [a | b] is empty only when both are. *)
Theorem capability_union_contains (f : flag) (a b : Capability.t) :
  contains f (Capability.union a b) = contains f a || contains f b
  /\ (forall f', contains f (value f') = bool_decide (f = f'))
  /\ truthy (value f) = true
  /\ truthy (Capability.union a b) = truthy a || truthy b.
Proof.
  split; [|split; [|split]].
  - destruct (value_power_of_two f) as [i Hi].
    unfold contains, Capability.union. rewrite Hi, !land_power_of_two.
    rewrite N.lor_spec.
    assert ((0 =? 2 ^ i)%N = false) as H0.
    { apply N.eqb_neq. intros H. symmetry in H.
      apply N.pow_nonzero in H; [exact H|discriminate]. }
    generalize dependent (2 ^ i)%N. intros p _ H0.
    destruct (N.testbit a i), (N.testbit b i); cbn [orb];
      rewrite ?N.eqb_refl, ?H0; reflexivity.
  - intros f'. destruct f, f'; reflexivity.
  - destruct f; reflexivity.
  - unfold truthy, Capability.union.
    destruct (N.eqb_spec a 0) as [->|Ha]; simpl.
    + rewrite N.lor_0_l. reflexivity.
    + apply negb_true_iff, N.eqb_neq. intros H.
      apply N.lor_eq_0_iff in H as [H _]. contradiction.
Qed.

End Flags.

(** ** One topic for one key *)

Section Distinct.

Context {Number Callback UserData : Type}.

Local Abbreviation Climate := (@Climate Number Callback UserData).

Lemma append_cancel_l (a x y : string) : a +:+ x = a +:+ y -> x = y.
Proof.
  induction a as [|c a IH]; [exact id|].
  rewrite !append_cons. intros [= H]. exact (IH H).
Qed.

Lemma entry_topic_suffix (o : Climate) (e : kind * string) :
  entry_topic o e
  = (state_prefix (mqtt (_settings o)) +:+ "/" +:+ _entity_topic o)
    +:+ entry_suffix e.
Proof.
  destruct e as [[] key]; simpl;
    unfold state_topic_of, command_topic_of; rewrite !append_assoc;
    reflexivity.
Qed.

Lemma table_suffix_inj :
  Forall (fun e : kind * string =>
    Forall (fun e' : kind * string =>
      entry_suffix e = entry_suffix e' -> e = e')
      (flat_map row members))
    (flat_map row members).
Proof. apply (bool_decide_unpack _). vm_compute. reflexivity. Qed.

(** X12. On one instance no two keys of the table get the same topic:
    the state topics and the command topics of all capabilities are
    pairwise different, whatever the prefix and the topic of the entity. *)
Theorem topics_are_distinct (o : Climate) (e e' : kind * string) :
  e ∈ flat_map row members ->
  e' ∈ flat_map row members ->
  e <> e' ->
  entry_topic o e <> entry_topic o e'.
Proof.
  intros He He' Hne Heq. apply Hne.
  rewrite !entry_topic_suffix in Heq. apply append_cancel_l in Heq.
  pose proof (proj1 (Forall_forall _ _) table_suffix_inj _ He) as H.
  exact (proj1 (Forall_forall _ _) H _ He' Heq).
Qed.

End Distinct.

(** ** The class dictionaries stay small *)

Section Bounded.

Context {Number Callback UserData : Type}.
Context {Base : @Discoverable Number}.

Local Abbreviation State := (@State Number Callback UserData).
Local Abbreviation Climate := (@Climate Number Callback UserData).
Local Abbreviation config := (gmap string (@pyobj Number)).

Lemma dict_set_keys (k : string) (v : string) (d : PyDict.t string) :
  NoDup (d.*1) -> NoDup ((PyDict.set k v d).*1).
Proof.
  induction d as [|[k0 v0] d IH]; simpl.
  - intros _. apply NoDup_singleton.
  - intros [Hnot Hnd]%NoDup_cons. destruct (String.eqb k0 k) eqn:E; simpl.
    + apply NoDup_cons. split; assumption.
    + apply NoDup_cons. split; [|exact (IH Hnd)].
      intros ([k1 v1] & Hk & Hin)%list_elem_of_fmap. simpl in Hk. subst k1.
      apply dict_set_elem_of in Hin as [[= -> ->]|Hin].
      * rewrite String.eqb_refl in E. discriminate.
      * apply Hnot. apply (list_elem_of_fmap_2 fst _ _ Hin).
Qed.

Lemma apply_entries_keys (o : Climate) (es : list (kind * string))
    (p : config * ClimateClass) :
  NoDup ((_command_topics p.2).*1) ->
  NoDup ((_command_topics (apply_entries o es p).2).*1).
Proof.
  revert p. induction es as [|[kd k] es IH]; intros p Hnd; [exact Hnd|].
  simpl. apply IH. destruct kd; simpl; [exact Hnd|].
  apply dict_set_keys. exact Hnd.
Qed.

Lemma rows_of_state_key (cap : option Capability.t) (k : string) :
  (StateTopic, k) ∈ rows_of cap -> exists f, state_key f = Some k.
Proof.
  destruct cap as [c|]; simpl; [|intros H; inversion H].
  intros (f & _ & Hin)%elem_of_rows. exists f.
  apply elem_of_row_state. exact Hin.
Qed.

Lemma reachable_state_keys (cl : ClimateClass) :
  @reachable Number Callback UserData Base cl ->
  forall k, is_Some (_state_topics cl !! k) -> exists f, state_key f = Some k.
Proof.
  induction 1 as [|st st' r Hreach IH Hrun]; intros k Hk.
  - simpl in Hk. rewrite lookup_empty in Hk. destruct Hk; discriminate.
  - rewrite generate_config_run in Hrun.
    destruct (parent_config (self st) !! "state_topic").
    + injection Hrun as _ <-. simpl in Hk.
      destruct (decide ((StateTopic, k)
                        ∈ rows_of (capability (_settings (self st)))))
        as [Hin|Hout].
      * exact (rows_of_state_key _ _ Hin).
      * rewrite state_topics_lookup_absent in Hk by exact Hout.
        exact (IH k Hk).
    + injection Hrun as _ <-. exact (IH k Hk).
Qed.

Lemma reachable_command_keys_NoDup (cl : ClimateClass) :
  @reachable Number Callback UserData Base cl ->
  NoDup ((_command_topics cl).*1).
Proof.
  induction 1 as [|st st' r Hreach IH Hrun].
  - apply NoDup_nil_2.
  - rewrite generate_config_run in Hrun.
    destruct (parent_config (self st) !! "state_topic").
    + injection Hrun as _ <-. simpl. apply apply_entries_keys. exact IH.
    + injection Hrun as _ <-. exact IH.
Qed.

(** X13. However many instances generate their configuration, the
    dictionaries of the class hold only keys of the table, each once: at
    most 11 state topics and 9 command topics. A new instance with the
    same capability takes the entry over, it does not add one. *)
Theorem class_dictionaries_bounded (cl : ClimateClass) :
  @reachable Number Callback UserData Base cl ->
  (forall k, is_Some (_state_topics cl !! k) -> exists f, state_key f = Some k)
  /\ (forall k v, (k, v) ∈ _command_topics cl ->
                  exists f, command_key f = Some k)
  /\ NoDup ((_command_topics cl).*1)
  /\ size (_state_topics cl) <= 11
  /\ length (_command_topics cl) <= 9.
Proof.
  intros Hreach.
  pose proof (reachable_state_keys cl Hreach) as Hstate.
  pose proof (reachable_command_topics_wf cl Hreach) as Hwf.
  pose proof (reachable_command_keys_NoDup cl Hreach) as Hnd.
  assert (forall k v, (k, v) ∈ _command_topics cl ->
                      exists f, command_key f = Some k) as Hcommand.
  { intros k v Hin. destruct (Hwf k v Hin) as [Ht _].
    apply list_elem_of_In, in_flat_map in Ht as (f & _ & Hf).
    exists f. apply elem_of_row_command, list_elem_of_In. exact Hf. }
  split; [exact Hstate|]. split; [exact Hcommand|]. split; [exact Hnd|].
  split.
  - rewrite <- length_map_to_list, <- (length_fmap fst).
    change 11 with (length (omap state_key members)).
    apply submseteq_length, NoDup_submseteq.
    + apply NoDup_fst_map_to_list.
    + intros k ([k' v] & -> & Hin)%list_elem_of_fmap. simpl.
      apply elem_of_map_to_list in Hin.
      destruct (Hstate k' (ex_intro _ v Hin)) as [f Hf].
      destruct f; simpl in Hf; try discriminate Hf; injection Hf as <-;
        repeat first [apply list_elem_of_here | apply list_elem_of_further].
  - rewrite <- (length_fmap fst).
    change 9 with (length (omap command_key members)).
    apply submseteq_length, NoDup_submseteq; [exact Hnd|].
    intros k ([k' v] & -> & Hin)%list_elem_of_fmap. simpl.
    destruct (Hcommand k' v Hin) as [f Hf].
    destruct f; simpl in Hf; try discriminate Hf; injection Hf as <-;
      repeat first [apply list_elem_of_here | apply list_elem_of_further].
Qed.

End Bounded.

(** ** The names of the topics *)

Section Names.

Context {Number Callback UserData : Type}.
Context {NumberStr : @Str Number} {Base : @Discoverable Number}.
Context {Net : @Broker Callback UserData}.

Local Abbreviation State := (@State Number Callback UserData).
Local Abbreviation Climate := (@Climate Number Callback UserData).
Local Abbreviation setter := (@setter Number).
Local Abbreviation config := (gmap string (@pyobj Number)).

Lemma length_append (s t : string) :
  String.length (s +:+ t) = String.length s + String.length t.
Proof.
  induction s as [|c s IH]; [reflexivity|].
  rewrite append_cons. simpl. rewrite IH. reflexivity.
Qed.

Lemma substring_all (s : string) :
  String.substring 0 (String.length s) s = s.
Proof. induction s as [|c s IH]; simpl; [|rewrite IH]; reflexivity. Qed.

Lemma substring_append_l (s t : string) :
  String.substring 0 (String.length s) (s +:+ t) = s.
Proof.
  induction s as [|c s IH].
  - destruct t; reflexivity.
  - rewrite append_cons. simpl. rewrite IH. reflexivity.
Qed.

Lemma substring_append_r (s t : string) :
  String.substring (String.length s) (String.length t) (s +:+ t) = t.
Proof.
  induction s as [|c s IH].
  - apply substring_all.
  - rewrite append_cons. simpl. exact IH.
Qed.

(** [(s + suffix).removesuffix(suffix)] is [s]. *)
Lemma removesuffix_append (s suffix : string) :
  PyStr.removesuffix (s +:+ suffix) suffix = s.
Proof.
  unfold PyStr.removesuffix, PyStr.endswith.
  destruct suffix as [|c suffix]; simpl negb.
  - simpl. clear. induction s as [|c s IH]; [reflexivity|].
    rewrite append_cons. f_equal. exact IH.
  - cbn [andb]. rewrite length_append.
    replace (String.length s + String.length (String c suffix)
             - String.length (String c suffix))
      with (String.length s) by (rewrite Nat.add_sub; reflexivity).
    rewrite substring_append_r, String.eqb_refl, substring_append_l.
    destruct (_ <=? _)%nat eqn:E; [reflexivity|].
    apply Nat.leb_gt in E. exfalso.
    apply (Nat.lt_irrefl (String.length (String c suffix))).
    eapply Nat.le_lt_trans; [|exact E]. apply Nat.le_add_l.
Qed.

(** X14. The naming rule of the topics, for any key: a key
    "<name>_state_topic" gets the state topic
    "{state_prefix}/{entity_topic}/state/<name>" and a key
    "<name>_command_topic" the command topic
    "{state_prefix}/{entity_topic}/command/<name>". *)
Theorem topic_naming_rule (o : Climate) (name_ : string) :
  state_topic_of o (name_ +:+ "_state_topic")
  = state_prefix (mqtt (_settings o)) +:+ "/" +:+ _entity_topic o
    +:+ "/state/" +:+ name_
  /\ command_topic_of o (name_ +:+ "_command_topic")
     = state_prefix (mqtt (_settings o)) +:+ "/" +:+ _entity_topic o
       +:+ "/command/" +:+ name_.
Proof.
  unfold state_topic_of, command_topic_of.
  change (name_ +:+ "_state_topic") with (name_ +:+ ("_state" +:+ "_topic")).
  change (name_ +:+ "_command_topic")
    with (name_ +:+ ("_command" +:+ "_topic")).
  rewrite <- !append_assoc, !removesuffix_append. split; reflexivity.
Qed.

(** X15. For each of the eight capabilities with both topics, the command
    topic is the state topic with the level "command" in the place of
    "state": both end in the same name. *)
Theorem paired_topics_share_name (o : Climate) (f : flag) (ks kc : string) :
  state_key f = Some ks ->
  command_key f = Some kc ->
  exists name_,
    state_topic_of o ks
    = state_prefix (mqtt (_settings o)) +:+ "/" +:+ _entity_topic o
      +:+ "/state/" +:+ name_
    /\ command_topic_of o kc
       = state_prefix (mqtt (_settings o)) +:+ "/" +:+ _entity_topic o
         +:+ "/command/" +:+ name_.
Proof.
  intros Hs Hc. unfold state_topic_of, command_topic_of.
  destruct f; simpl in Hs, Hc; try discriminate;
    injection Hs as <-; injection Hc as <-;
    eexists; split; reflexivity.
Qed.

(** X16. The guard of [_capability_state_helper] is reached through the
    dictionary of the class: once an instance with the capability has
    generated its configuration, a setter of an instance without the
    capability finds the topic of the other instance and raises the
    [RuntimeError] "Action is not configured for this entity!"; nothing is
    published. *)
Theorem unconfigured_setter_with_foreign_topic (a b : Climate)
    (cl : ClimateClass) (cfg : config) (st' : State)
    (ca cb : Capability.t) (op : setter) :
  generate_config {| self := a; cls := cl |} = (Ok cfg, st') ->
  capability (_settings a) = Some ca ->
  contains (setter_flag op) ca = true ->
  capability (_settings b) = Some cb ->
  contains (setter_flag op) cb = false ->
  accepted op (_entity b) ->
  call op {| self := b; cls := cls st' |}
  = (Raise (RuntimeError (Literal "Action is not configured for this entity!")),
     {| self := b; cls := cls st' |}).
Proof.
  intros Hrun Hca Hfa Hcb Hfb Hacc.
  destruct (generated_state_topic _ _ _ ca op Hrun Hca Hfa) as (_ & _ & Hst).
  rewrite call_accepted by exact Hacc. unfold looks_up_and_sends. simpl.
  rewrite Hst, Hcb, Hfb. reflexivity.
Qed.

(** X17. After a connection that succeeded, the setter of every capability
    of the instance, with a valid argument, hands one message to the
    client, on the state topic of the instance. *)
Theorem setter_after_connection (st : State) (c : Capability.t) (op : setter) :
  (on_client_connected st).1 = Ok tt ->
  capability (_settings (self st)) = Some c ->
  contains (setter_flag op) c = true ->
  accepted op (_entity (self st)) ->
  let st1 := (on_client_connected st).2 in
  let st2 := (call op st1).2 in
  call op st1
  = sends (setter_payload op) (state_topic_of (self st) (setter_key op)) st1
  /\ published (mqtt_client (self st2))
     = published (mqtt_client (self st1))
       ++ [(state_topic_of (self st) (setter_key op), setter_payload op)].
Proof.
  intros Hok Hc Hf Hacc st1 st2.
  assert (call op st1
          = sends (setter_payload op)
              (state_topic_of (self st) (setter_key op)) st1) as Hcall.
  { subst st1. rewrite (connected_state st Hok).
    apply (call_sends op _ c).
    - exact Hacc.
    - exact Hc.
    - exact Hf.
    - simpl. rewrite Hc. simpl rows_of.
      apply (apply_rows_state _ c _ _ _ Hf (setter_key_state_key op)). }
  split; [exact Hcall|]. subst st2. rewrite Hcall. reflexivity.
Qed.

End Names.
